(** * gapp: lifecycle orchestration and middleware

    A shallow embedding of [app.go] and [middleware.go].

    Go functions become functions in a state-and-panic monad; the calls a
    function makes to application code are recorded in a log carried by the
    state, so that ordering properties are statements about that log.  A Go
    panic is an outcome of its own, [defer] and [recover()] are written out,
    and goroutines are entries of a pool stepped by a scheduling oracle. *)

From Stdlib Require Import ZArith List String Bool Lia.
From Stdlib Require Import DecimalString DecimalPos DecimalZ.
Import ListNotations.
Open Scope string_scope.
Open Scope list_scope.
Open Scope Z_scope.

Set Implicit Arguments.

(** ** Panics *)

(** The value carried by a Go panic. *)
Definition PanicVal := string.

(** What a call to Go code ends in: a normal return or a panic in flight. *)
Inductive outcome (A : Type) : Type :=
| Ret (a : A)
| Panic (v : PanicVal).
Arguments Ret {A} a.
Arguments Panic {A} v.

Definition returned {A} (o : outcome A) : bool :=
  match o with Ret _ => true | Panic _ => false end.

Definition panic_of {A} (o : outcome A) : option PanicVal :=
  match o with Ret _ => None | Panic v => Some v end.

(** time.Time (its monotonic reading, in nanoseconds) and time.Duration. *)
Definition Time := Z.
Definition Duration := Z.

(** * middleware.go *)

Module Middleware.

(** The part of *http.Request the middleware reads.  Handlers do not modify
    the request they are given (the net/http contract), so it is a value. *)
Record Request := { Method : string; URL_Path : string }.

(** An http.ResponseWriter interface value.  Its dynamic type either
    implements negroni.ResponseWriter (and then exposes Status()) or it
    does not; [id] names the writer object in the heap. *)
Inductive ResponseWriter :=
| NegroniWriter (id : nat)
| PlainWriter (id : nat).

Definition writer_id (rw : ResponseWriter) : nat :=
  match rw with NegroniWriter i => i | PlainWriter i => i end.

Section Requests.

(** State owned by the application. *)
Variable S : Type.

(** What application code can reach: its own state and the status code
    each writer object holds (0 until a header is written). *)
Record Heap := mkHeap { app : S; written : nat -> Z }.

(** Calls observed while a request is handled. *)
Inductive event :=
| NowEv (t : Time)
| PreLogEv (method path : string) (start : Time)
| PostLogEv (method path : string) (status : Z) (dur : Duration)
| RecoverEv (rw : ResponseWriter) (r : Request) (inflight : option PanicVal).

(** [clock] is the last reading of the monotonic clock; [ticks] tells by
    how much each later reading has advanced (an oracle, never negative). *)
Record World := mkWorld {
  heap : Heap;
  clock : Time;
  ticks : list N;
  log : list event
}.

Definition M (A : Type) : Type := World -> outcome A * World.

Definition ret {A} (a : A) : M A := fun w => (Ret a, w).

Definition bind {A B} (m : M A) (k : A -> M B) : M B :=
  fun w =>
    match m w with
    | (Ret a, w1) => k a w1
    | (Panic v, w1) => (Panic v, w1)
    end.

Notation "x <- m ;; k" := (bind m (fun x => k))
  (at level 61, m at next level, right associativity).
Notation "m ;;; k" := (bind m (fun _ => k))
  (at level 61, right associativity).

Definition emit (e : event) : M unit :=
  fun w => (Ret tt, mkWorld (heap w) (clock w) (ticks w) (log w ++ [e])).

(** Application code runs on the heap only. *)
Definition on_heap {A} (f : Heap -> outcome A * Heap) : M A :=
  fun w =>
    let (o, h) := f (heap w) in
    (o, mkWorld h (clock w) (ticks w) (log w)).

(** time.Now() *)
Definition time_Now : M Time :=
  fun w =>
    let d := match ticks w with [] => 0%N | d :: _ => d end in
    let t := clock w + Z.of_N d in
    (Ret t, mkWorld (heap w) t (tl (ticks w)) (log w ++ [NowEv t])).

(** time.Since(start) is time.Now().Sub(start). *)
Definition time_Since (start : Time) : M Duration :=
  now <- time_Now ;; ret (now - start).

(** res.Status() on a negroni.ResponseWriter *)
Definition Status (id : nat) : M Z :=
  fun w => (Ret (written (heap w) id), w).

Definition HandlerFunc : Type := ResponseWriter -> Request -> M unit.

(** negroni.Handler: ServeHTTP(rw, r, next) *)
Definition Handler : Type := ResponseWriter -> Request -> HandlerFunc -> M unit.

(** ** Recovery middleware *)

(** What a deferred call did: whether it called recover(), and the panic
    it raised itself, if any. *)
Record deferred := mkDeferred { recovered : bool; raised : option PanicVal }.

(** func(rw http.ResponseWriter, r *http.Request), run as a deferred call:
    the third argument is what recover() returns to it. *)
Definition RecoverFunc : Type :=
  ResponseWriter -> Request -> option PanicVal -> Heap -> deferred * Heap.

Record recoveryMiddleware := { recoverFunc : option RecoverFunc }.

Definition RecoveryMiddleware (f : option RecoverFunc) : recoveryMiddleware :=
  {| recoverFunc := f |}.

(** How the frame ends once its deferred call has run. *)
Definition after_deferred (inflight : option PanicVal) (d : deferred)
  : outcome unit :=
  match raised d with
  | Some v' => Panic v'
  | None =>
      match inflight with
      | Some v => if recovered d then Ret tt else Panic v
      | None => Ret tt
      end
  end.

(** [defer f(rw, r)] followed by [body]: the deferred call runs when the
    body has finished, by return or by panic. *)
Definition with_defer (f : RecoverFunc) (rw : ResponseWriter) (r : Request)
    (body : M unit) : M unit :=
  fun w =>
    let (o, w1) := body w in
    let inflight := panic_of o in
    let (d, h) := f rw r inflight (heap w1) in
    (after_deferred inflight d,
     mkWorld h (clock w1) (ticks w1) (log w1 ++ [RecoverEv rw r inflight])).

Definition recoveryMiddleware_ServeHTTP (rec : recoveryMiddleware)
  : Handler :=
  fun rw r next =>
    match recoverFunc rec with
    | Some f => with_defer f rw r (next rw r)
    | None => next rw r
    end.

(** ** Logging middleware *)

Definition PreLogFunc : Type :=
  string -> string -> Time -> Heap -> outcome unit * Heap.
Definition PostLogFunc : Type :=
  string -> string -> Z -> Duration -> Heap -> outcome unit * Heap.

Record loggingMiddleware := {
  preLogFunc : option PreLogFunc;
  postLogFunc : option PostLogFunc
}.

Definition LoggingMiddleware (pre : option PreLogFunc)
    (post : option PostLogFunc) : loggingMiddleware :=
  {| preLogFunc := pre; postLogFunc := post |}.

Definition call_pre (f : PreLogFunc) (m p : string) (start : Time) : M unit :=
  emit (PreLogEv m p start) ;;; on_heap (f m p start).

Definition call_post (g : PostLogFunc) (m p : string) (st : Z)
    (d : Duration) : M unit :=
  emit (PostLogEv m p st d) ;;; on_heap (g m p st d).

Definition loggingMiddleware_ServeHTTP (l : loggingMiddleware) : Handler :=
  fun rw r next =>
    start <- time_Now ;;
    match preLogFunc l with
    | Some f => call_pre f (Method r) (URL_Path r) start
    | None => ret tt
    end ;;;
    next rw r ;;;
    match postLogFunc l with
    | Some g =>
        match rw with
        | NegroniWriter id =>
            st <- Status id ;;
            d <- time_Since start ;;
            call_post g (Method r) (URL_Path r) st d
        | PlainWriter _ =>
            d <- time_Since start ;;
            call_post g (Method r) (URL_Path r) 0 d
        end
    | None => ret tt
    end.

(** ** Compression middleware *)

(** gziphandler.GzipHandler, of the library the middleware delegates to. *)
Variable GzipHandler : HandlerFunc -> HandlerFunc.

Inductive gzipMiddleware := mk_gzipMiddleware.

Definition GzipMiddleware : gzipMiddleware := mk_gzipMiddleware.

Definition gzipMiddleware_ServeHTTP (gm : gzipMiddleware) : Handler :=
  fun rw r next => GzipHandler next rw r.

(** ** Reading a run *)

(** The status a writer exposes through negroni.ResponseWriter, if its
    dynamic type implements that interface. *)
Definition exposed_status (rw : ResponseWriter) (h : Heap) : option Z :=
  match rw with
  | NegroniWriter id => Some (written h id)
  | PlainWriter _ => None
  end.

(** The clock does not run backwards while [m] runs. *)
Definition clock_monotone {A} (m : M A) : Prop :=
  forall w, clock w <= clock (snd (m w)).

(** What the pre-call part of the logging middleware leaves in the log. *)
Definition pre_events (l : loggingMiddleware) (r : Request) (start : Time)
  : list event :=
  NowEv start ::
  match preLogFunc l with
  | Some _ => [PreLogEv (Method r) (URL_Path r) start]
  | None => []
  end.

(** How the pre-call callback ends on heap [h], and the heap it leaves. *)
Definition pre_result (l : loggingMiddleware) (r : Request) (start : Time)
    (h : Heap) : outcome unit * Heap :=
  match preLogFunc l with
  | Some f => f (Method r) (URL_Path r) start h
  | None => (Ret tt, h)
  end.

(** The recovery contract read literally: the callback is called only
    when the handling of the request raised a fault, and the middleware
    then completes normally. *)
Definition recovers_only_faults (f : RecoverFunc) (rw : ResponseWriter)
    (r : Request) (next : HandlerFunc) (w : World) : Prop :=
  let o := fst (next rw r w) in
  let w1 := snd (next rw r w) in
  let res :=
    recoveryMiddleware_ServeHTTP (RecoveryMiddleware (Some f)) rw r next w in
  match o with
  | Panic v =>
      log (snd res) = log w1 ++ [RecoverEv rw r (Some v)] /\
      fst res = Ret tt
  | Ret _ => log (snd res) = log w1 /\ fst res = Ret tt
  end.

End Requests.
End Middleware.

(** * app.go *)

Module App.

Import Middleware.

(** ServerConfig encapsulates the various values needed to start the
    server. *)
Record ServerConfig := {
  Host : string;
  Port : Z;
  GracefulTimeout : Duration;
  ReadTimeout : Duration;
  WriteTimeout : Duration;
  TLSPort : Z;
  TLSCertFile : string;
  TLSPrivateKeyFile : string
}.

(** strconv.Itoa *)
Definition Itoa (i : Z) : string := NilZero.string_of_int (Z.to_int i).

(** The threads of a run: the one that called Run, and the goroutines it
    started, numbered in the order of their [go] statements. *)
Inductive tid :=
| MainThread
| Goroutine (i : nat).

Section Orchestrator.

(** The Go heap as the application sees it. *)
Variable S : Type.
(** The Config type of the package (declared outside app.go). *)
Variable Config : Type.
(** *mux.Router, and mux.NewRouter(), which allocates one. *)
Variable Router : Type.
Variable mux_NewRouter : S -> Router * S.
Variable Router_ServeHTTP : Router -> HandlerFunc S.
(** The type of graceful.Run. *)
Variable RunFunc : Type.

(** ** negroni *)

(** Modelled from the spec: the middleware-chain builder is an external
    collaborator (the negroni library) that accepts an ordered list of
    middleware units plus a final handler and produces one composed
    handler, first supplied outermost.  A Negroni is the list of its
    handlers, run first to last. *)
Record Negroni := { handlers : list (Handler S) }.

(** negroni.New(handlers...) *)
Definition negroni_New (hs : list (Handler S)) : Negroni :=
  {| handlers := hs |}.

(** negroni.Wrap turns an http.Handler into a negroni.Handler that runs it
    and then the next one. *)
Definition negroni_Wrap (h : HandlerFunc S) : Handler S :=
  fun rw r next => bind (h rw r) (fun _ => next rw r).

(** n.UseHandler(handler) adds Wrap(handler) at the end of the stack. *)
Definition UseHandler (n : Negroni) (r : Router) : Negroni :=
  {| handlers := handlers n ++ [negroni_Wrap (Router_ServeHTTP r)] |}.

(** The chain negroni builds: each handler gets the rest as its [next];
    after the last comes a handler that does nothing. *)
Fixpoint build (hs : list (Handler S)) : HandlerFunc S :=
  match hs with
  | [] => fun _ _ => ret tt
  | h :: rest => fun rw r => h rw r (build rest)
  end.

(** negroni.NewResponseWriter wraps the writer in a negroni.ResponseWriter. *)
Definition NewResponseWriter (rw : ResponseWriter) : ResponseWriter :=
  NegroniWriter (writer_id rw).

Definition Negroni_ServeHTTP (n : Negroni) : HandlerFunc S :=
  fun rw r => build (handlers n) (NewResponseWriter rw) r.

(** ** The Gapp interface *)

(** Gapp defines the callback interface that a webservice must implement.
    Each callback runs on the heap and returns or panics. *)
Record Gapp := {
  LoadConfig : S -> outcome Config * S;
  ConfigureLogging : Config -> S -> outcome unit * S;
  InitResources : Config -> S -> outcome unit * S;
  ConfigureRoutes : Router -> Config -> S -> outcome unit * S;
  SetMiddleware : Config -> S -> outcome (list (Handler S)) * S;
  GetServerConf : Config -> S -> outcome ServerConfig * S;
  HandleStart : string -> Z -> Z -> S -> outcome unit * S;
  HandleStopped : S -> outcome unit * S
}.

(** ** Listeners *)

(** http.Server and graceful.Server, with the fields Run sets. *)
Record http_Server := {
  Addr : string;
  Handler_ : Negroni;
  srv_WriteTimeout : Duration;
  srv_ReadTimeout : Duration
}.

Record graceful_Server := { Timeout : Duration; Server : http_Server }.

Inductive serve_call :=
| ListenAndServe
| ListenAndServeTLS (certFile keyFile : string).

(** The body of a listener goroutine: the server it builds and the call it
    makes on it; [defer wg.Done()] is part of every body. *)
Record listener := { srv : graceful_Server; serve : serve_call }.

Inductive gstate :=
| GCreated      (* started by [go], has not run yet *)
| GServing      (* inside ListenAndServe / ListenAndServeTLS *)
| GDone.        (* the call returned and wg.Done() has run *)

Record goroutine := { g_body : listener; g_state : gstate }.

(** ** Events *)

(** What a run does, in the order it does it.  A callback's event carries
    its arguments and how it ended. *)
Inductive event :=
| LoadConfigEv (res : outcome Config)
| ConfigureLoggingEv (conf : Config) (res : outcome unit)
| InitResourcesEv (conf : Config) (res : outcome unit)
| NewRouterEv (r : Router)
| ConfigureRoutesEv (r : Router) (conf : Config) (res : outcome unit)
| SetMiddlewareEv (conf : Config) (res : outcome (list (Handler S)))
| NegroniNewEv (hs : list (Handler S))
| UseHandlerEv (r : Router)
| GetServerConfEv (conf : Config) (res : outcome ServerConfig)
| HandleStartEv (host : string) (port tlsPort : Z) (res : outcome unit)
| WgAddEv (delta : Z)
| GoEv (l : listener)
| WgWaitEv
| HandleStoppedEv (res : outcome unit)
| ServeEv (i : nat) (l : listener)   (* goroutine [i] calls its server *)
| ExitEv (i : nat).                  (* goroutine [i] has terminated *)

(** ** State *)

Record World := mkWorld {
  w_heap : S;
  w_trace : list event;
  w_wg : Z;                      (* counter of [wg] *)
  w_pool : list goroutine;       (* goroutines started by this run *)
  w_sched : list tid;            (* who runs next: the scheduler's choices *)
  doRunFunc : RunFunc            (* the package-level variable *)
}.

(** A run starts with no goroutine of its own and a zero WaitGroup. *)
Definition init_world (s : S) (sched : list tid) (f : RunFunc) : World :=
  mkWorld s [] 0 [] sched f.

(** How the main thread ends: it returns, it panics, or it waits for
    ever. *)
Inductive result (A : Type) : Type :=
| Returned (a : A)
| Panicked (v : PanicVal)
| Blocked.
Arguments Returned {A} a.
Arguments Panicked {A} v.
Arguments Blocked {A}.

Definition M (A : Type) : Type := World -> result A * World.

Definition mret {A} (a : A) : M A := fun w => (Returned a, w).

Definition mbind {A B} (m : M A) (k : A -> M B) : M B :=
  fun w =>
    match m w with
    | (Returned a, w1) => k a w1
    | (Panicked v, w1) => (Panicked v, w1)
    | (Blocked, w1) => (Blocked, w1)
    end.

Notation "x <- m ;; k" := (mbind m (fun x => k))
  (at level 61, m at next level, right associativity).
Notation "m ;;; k" := (mbind m (fun _ => k))
  (at level 61, right associativity).

Definition log_event (e : event) (w : World) : World :=
  mkWorld (w_heap w) (w_trace w ++ [e]) (w_wg w) (w_pool w) (w_sched w)
    (doRunFunc w).

(** ** Goroutines *)

Fixpoint set_state (i : nat) (st : gstate) (p : list goroutine)
  : list goroutine :=
  match p, i with
  | [], _ => []
  | g :: rest, O => {| g_body := g_body g; g_state := st |} :: rest
  | g :: rest, Datatypes.S j => g :: set_state j st rest
  end.

(** One step of goroutine [i].  Its body is
    [defer wg.Done(); srv := ...; srv.ListenAndServe()]: it first calls its
    server, and when that call returns the deferred wg.Done() runs.
    (wg.Done() panics on a counter that would become negative; in a run
    the counter is positive at this point, see [listening].) *)
Definition step_goroutine (i : nat) (w : World) : World :=
  match nth_error (w_pool w) i with
  | None => w
  | Some g =>
      match g_state g with
      | GCreated =>
          mkWorld (w_heap w) (w_trace w ++ [ServeEv i (g_body g)]) (w_wg w)
            (set_state i GServing (w_pool w)) (w_sched w) (doRunFunc w)
      | GServing =>
          mkWorld (w_heap w) (w_trace w ++ [ExitEv i]) (w_wg w - 1)
            (set_state i GDone (w_pool w)) (w_sched w) (doRunFunc w)
      | GDone => w
      end
  end.

(** The goroutines run until the scheduler picks the main thread. *)
Fixpoint run_others (sched : list tid) (w : World) : list tid * World :=
  match sched with
  | [] => ([], w)
  | MainThread :: rest => (rest, w)
  | Goroutine i :: rest => run_others rest (step_goroutine i w)
  end.

Definition set_sched (sched : list tid) (w : World) : World :=
  mkWorld (w_heap w) (w_trace w) (w_wg w) (w_pool w) sched (doRunFunc w).

(** Every statement of the main thread waits for its turn. *)
Definition yield : M unit :=
  fun w =>
    let (sched, w1) := run_others (w_sched w) w in
    (Returned tt, set_sched sched w1).

(** ** Statements *)

Definition lift {A} (o : outcome A) : result A :=
  match o with Ret a => Returned a | Panic v => Panicked v end.

(** A call of an application callback. *)
Definition call {A} (f : S -> outcome A * S) (ev : outcome A -> event)
  : M A :=
  yield ;;;
  fun w =>
    let (o, s) := f (w_heap w) in
    (lift o,
     mkWorld s (w_trace w ++ [ev o]) (w_wg w) (w_pool w) (w_sched w)
       (doRunFunc w)).

Definition NewRouter : M Router :=
  yield ;;;
  fun w =>
    let (r, s) := mux_NewRouter (w_heap w) in
    (Returned r,
     mkWorld s (w_trace w ++ [NewRouterEv r]) (w_wg w) (w_pool w) (w_sched w)
       (doRunFunc w)).

Definition New (hs : list (Handler S)) : M Negroni :=
  yield ;;;
  fun w => (Returned (negroni_New hs), log_event (NegroniNewEv hs) w).

Definition Use (n : Negroni) (r : Router) : M Negroni :=
  yield ;;;
  fun w => (Returned (UseHandler n r), log_event (UseHandlerEv r) w).

Definition panic {A} (v : PanicVal) : M A := fun w => (Panicked v, w).

(** wg.Add(delta) *)
Definition wg_Add (delta : Z) : M unit :=
  yield ;;;
  fun w =>
    (Returned tt,
     mkWorld (w_heap w) (w_trace w ++ [WgAddEv delta]) (w_wg w + delta)
       (w_pool w) (w_sched w) (doRunFunc w)).

(** go func() { ... }() *)
Definition go (l : listener) : M unit :=
  yield ;;;
  fun w =>
    (Returned tt,
     mkWorld (w_heap w) (w_trace w ++ [GoEv l]) (w_wg w)
       (w_pool w ++ [{| g_body := l; g_state := GCreated |}]) (w_sched w)
       (doRunFunc w)).

(** wg.Wait() returns once the counter is zero; until then only the
    goroutines run.  When the schedule ends first, the wait never ends. *)
Fixpoint wait_loop (sched : list tid) (w : World) : result unit * World :=
  if w_wg w =? 0 then (Returned tt, log_event WgWaitEv (set_sched sched w))
  else
    match sched with
    | [] => (Blocked, set_sched [] w)
    | MainThread :: rest => wait_loop rest w
    | Goroutine i :: rest => wait_loop rest (step_goroutine i w)
    end.

Definition wg_Wait : M unit :=
  yield ;;; fun w => wait_loop (w_sched w) w.

(** ** initApp and Run *)

Definition initApp (app : Gapp) : M (Config * Negroni) :=
  config <- call (LoadConfig app) LoadConfigEv ;;
  call (ConfigureLogging app config) (ConfigureLoggingEv config) ;;;
  call (InitResources app config) (InitResourcesEv config) ;;;
  r <- NewRouter ;;
  call (ConfigureRoutes app r config) (ConfigureRoutesEv r config) ;;;
  hs <- call (SetMiddleware app config) (SetMiddlewareEv config) ;;
  n <- New hs ;;
  n <- Use n r ;;
  mret (config, n).

Definition http_listener (serverConfig : ServerConfig) (n : Negroni)
  : listener :=
  {| srv := {| Timeout := GracefulTimeout serverConfig;
               Server := {| Addr := Host serverConfig ++ ":"
                                      ++ Itoa (Port serverConfig);
                            Handler_ := n;
                            srv_WriteTimeout := WriteTimeout serverConfig;
                            srv_ReadTimeout := ReadTimeout serverConfig |} |};
     serve := ListenAndServe |}.

Definition tls_listener (serverConfig : ServerConfig) (n : Negroni)
  : listener :=
  {| srv := {| Timeout := GracefulTimeout serverConfig;
               Server := {| Addr := Host serverConfig ++ ":"
                                      ++ Itoa (TLSPort serverConfig);
                            Handler_ := n;
                            srv_WriteTimeout := WriteTimeout serverConfig;
                            srv_ReadTimeout := ReadTimeout serverConfig |} |};
     serve := ListenAndServeTLS (TLSCertFile serverConfig)
                (TLSPrivateKeyFile serverConfig) |}.

Definition no_ports : PanicVal :=
  "No ports specified. Must accept at least one scheme (HTTP and/or HTTPS).".

(** Run runs a Gapp app object, using its callbacks to configure and fire
    events.  Run blocks until the service is stopped. *)
Definition Run (app : Gapp) : M unit :=
  cn <- initApp app ;;
  let (config, n) := cn in
  serverConfig <- call (GetServerConf app config) (GetServerConfEv config) ;;
  call (HandleStart app (Host serverConfig) (Port serverConfig)
          (TLSPort serverConfig))
       (HandleStartEv (Host serverConfig) (Port serverConfig)
          (TLSPort serverConfig)) ;;;
  (if (Port serverConfig <=? 0) && (TLSPort serverConfig <=? 0)
   then panic no_ports
   else mret tt) ;;;
  (if 0 <? Port serverConfig
   then wg_Add 1 ;;; go (http_listener serverConfig n)
   else mret tt) ;;;
  (if 0 <? TLSPort serverConfig
   then wg_Add 1 ;;; go (tls_listener serverConfig n)
   else mret tt) ;;;
  wg_Wait ;;;
  call (HandleStopped app) HandleStoppedEv.

(** ** Reading a trace *)

(** The listeners started so far, in the order of their [go] statements. *)
Fixpoint started (tr : list event) : list listener :=
  match tr with
  | [] => []
  | GoEv l :: rest => l :: started rest
  | _ :: rest => started rest
  end.

(** The listeners Run starts for a ServerConfig and a handler. *)
Definition listeners_of (serverConfig : ServerConfig) (n : Negroni)
  : list listener :=
  (if 0 <? Port serverConfig then [http_listener serverConfig n] else [])
  ++ (if 0 <? TLSPort serverConfig then [tls_listener serverConfig n]
      else []).

(** The events of the listening phase up to the join: the WaitGroup is
    counted up, goroutines are started, and they run. *)
Definition listening_event (e : event) : bool :=
  match e with
  | WgAddEv _ | GoEv _ | ServeEv _ _ | ExitEv _ => true
  | _ => false
  end.

(** The events of a startup in which every callback returns. *)
Definition startup_trace (config : Config) (r : Router)
    (hs : list (Handler S)) (serverConfig : ServerConfig) : list event :=
  [ LoadConfigEv (Ret config);
    ConfigureLoggingEv config (Ret tt);
    InitResourcesEv config (Ret tt);
    NewRouterEv r;
    ConfigureRoutesEv r config (Ret tt);
    SetMiddlewareEv config (Ret hs);
    NegroniNewEv hs;
    UseHandlerEv r;
    GetServerConfEv config (Ret serverConfig);
    HandleStartEv (Host serverConfig) (Port serverConfig)
      (TLSPort serverConfig) (Ret tt) ].


(** The panic a startup callback ended in, if the event is one that did:
    LoadConfig, ConfigureLogging, InitResources, ConfigureRoutes,
    SetMiddleware, GetServerConf or HandleStart. *)
Definition startup_fault (e : event) : option PanicVal :=
  match e with
  | LoadConfigEv o => panic_of o
  | ConfigureLoggingEv _ o => panic_of o
  | InitResourcesEv _ o => panic_of o
  | ConfigureRoutesEv _ _ o => panic_of o
  | SetMiddlewareEv _ o => panic_of o
  | GetServerConfEv _ o => panic_of o
  | HandleStartEv _ _ _ o => panic_of o
  | _ => None
  end.







(** A server on the address Host:port, in decimal, with the handler [n]
    and the read, write and graceful timeouts of the ServerConfig. *)
Definition configured_server (serverConfig : ServerConfig) (n : Negroni)
    (port : Z) (g : graceful_Server) : Prop :=
  Addr (Server g) = (Host serverConfig ++ ":" ++ Itoa port)%string /\
  Handler_ (Server g) = n /\
  srv_ReadTimeout (Server g) = ReadTimeout serverConfig /\
  srv_WriteTimeout (Server g) = WriteTimeout serverConfig /\
  Timeout g = GracefulTimeout serverConfig.

(** A plain-HTTP listener on Host:Port. *)
Definition plain_listener (serverConfig : ServerConfig) (n : Negroni)
    (l : listener) : Prop :=
  configured_server serverConfig n (Port serverConfig) (srv l) /\
  serve l = ListenAndServe.

(** A TLS listener on Host:TLSPort, with the certificate and the private
    key of the ServerConfig. *)
Definition secure_listener (serverConfig : ServerConfig) (n : Negroni)
    (l : listener) : Prop :=
  configured_server serverConfig n (TLSPort serverConfig) (srv l) /\
  serve l = ListenAndServeTLS (TLSCertFile serverConfig)
              (TLSPrivateKeyFile serverConfig).

(** For a ServerConfig with a positive port, the listeners started are
    one per positive port: a plain-HTTP listener if and only if Port is
    positive, then a TLS listener if and only if TLSPort is positive, both
    on the handler built from the middleware and the router of this
    run. *)
Definition listeners_started (tr : list event) : Prop :=
  forall conf sc,
    In (GetServerConfEv conf (Ret sc)) tr ->
    0 < Port sc \/ 0 < TLSPort sc ->
    exists hs r plain secure,
      In (NegroniNewEv hs) tr /\ In (UseHandlerEv r) tr /\
      started tr = plain ++ secure /\
      (0 < Port sc ->
       exists l, plain = [l] /\
                 plain_listener sc (UseHandler (negroni_New hs) r) l) /\
      (Port sc <= 0 -> plain = []) /\
      (0 < TLSPort sc ->
       exists l, secure = [l] /\
                 secure_listener sc (UseHandler (negroni_New hs) r) l) /\
      (TLSPort sc <= 0 -> secure = []).

(** A goroutine that has terminated. *)
Definition done (g : goroutine) : bool :=
  match g_state g with GDone => true | _ => false end.

(** The number of goroutines that have not terminated. *)
Definition live (p : list goroutine) : Z :=
  Z.of_nat (List.length (filter (fun g => negb (done g)) p)).

(** The state of a run in its listening phase, which began with trace
    [tr0]: the listeners [ls] have been started, the events since are
    those of the phase, the counter of [wg] is the number of goroutines
    that have not terminated plus [k] (an Add whose [go] is still to come),
    and every goroutine that has terminated has logged its exit. *)
Definition listening (tr0 : list event) (ls : list listener) (k : Z)
    (w : World) : Prop :=
  exists evs,
    w_trace w = tr0 ++ evs /\
    forallb listening_event evs = true /\
    started evs = ls /\
    map g_body (w_pool w) = ls /\
    w_wg w = k + live (w_pool w) /\
    (forall i g, nth_error (w_pool w) i = Some g -> done g = true ->
                 In (ExitEv i) evs).

(** How the listening phase of a run that starts the listeners [ls] can
    end, with the events it adds and the pool it leaves: the join never
    ends, or it ends when every goroutine has terminated and logged its
    exit, and HandleStopped is then called. *)
Inductive listen_shape (ls : list listener)
  : result unit -> list event -> list goroutine -> Prop :=
| listen_blocked evs pool :
    forallb listening_event evs = true ->
    started evs = ls ->
    map g_body pool = ls ->
    listen_shape ls Blocked evs pool
| listen_stopped o evs pool :
    forallb listening_event evs = true ->
    started evs = ls ->
    map g_body pool = ls ->
    (forall i g, nth_error pool i = Some g ->
                 done g = true /\ In (ExitEv i) evs) ->
    listen_shape ls (lift o) (evs ++ [WgWaitEv; HandleStoppedEv o]) pool.

(** The part of Run after the check of the ports. *)
Definition listen_phase (app : Gapp) (serverConfig : ServerConfig)
    (n : Negroni) : M unit :=
  mbind (if 0 <? Port serverConfig
         then mbind (wg_Add 1)
                    (fun _ => go (http_listener serverConfig n))
         else mret tt)
    (fun _ =>
       mbind (if 0 <? TLSPort serverConfig
              then mbind (wg_Add 1)
                         (fun _ => go (tls_listener serverConfig n))
              else mret tt)
         (fun _ =>
            mbind wg_Wait
              (fun _ => call (HandleStopped app) HandleStoppedEv))).

(** The ways a run can go, with its trace and the pool it leaves: a
    startup callback panics, no port is positive, or the listeners are
    started and the listening phase ends as [listen_shape] says. *)
Inductive run_shape : result unit -> list event -> list goroutine -> Prop :=
| run_LoadConfig_panics v :
    run_shape (Panicked v) [LoadConfigEv (Panic v)] []
| run_ConfigureLogging_panics c v :
    run_shape (Panicked v)
      [LoadConfigEv (Ret c); ConfigureLoggingEv c (Panic v)] []
| run_InitResources_panics c v :
    run_shape (Panicked v)
      [LoadConfigEv (Ret c); ConfigureLoggingEv c (Ret tt);
       InitResourcesEv c (Panic v)] []
| run_ConfigureRoutes_panics c r v :
    run_shape (Panicked v)
      [LoadConfigEv (Ret c); ConfigureLoggingEv c (Ret tt);
       InitResourcesEv c (Ret tt); NewRouterEv r;
       ConfigureRoutesEv r c (Panic v)] []
| run_SetMiddleware_panics c r v :
    run_shape (Panicked v)
      [LoadConfigEv (Ret c); ConfigureLoggingEv c (Ret tt);
       InitResourcesEv c (Ret tt); NewRouterEv r;
       ConfigureRoutesEv r c (Ret tt); SetMiddlewareEv c (Panic v)] []
| run_GetServerConf_panics c r hs v :
    run_shape (Panicked v)
      [LoadConfigEv (Ret c); ConfigureLoggingEv c (Ret tt);
       InitResourcesEv c (Ret tt); NewRouterEv r;
       ConfigureRoutesEv r c (Ret tt); SetMiddlewareEv c (Ret hs);
       NegroniNewEv hs; UseHandlerEv r; GetServerConfEv c (Panic v)] []
| run_HandleStart_panics c r hs sc v :
    run_shape (Panicked v)
      [LoadConfigEv (Ret c); ConfigureLoggingEv c (Ret tt);
       InitResourcesEv c (Ret tt); NewRouterEv r;
       ConfigureRoutesEv r c (Ret tt); SetMiddlewareEv c (Ret hs);
       NegroniNewEv hs; UseHandlerEv r; GetServerConfEv c (Ret sc);
       HandleStartEv (Host sc) (Port sc) (TLSPort sc) (Panic v)] []
| run_no_ports c r hs sc :
    Port sc <= 0 -> TLSPort sc <= 0 ->
    run_shape (Panicked no_ports) (startup_trace c r hs sc) []
| run_listens c r hs sc res evs pool :
    0 < Port sc \/ 0 < TLSPort sc ->
    listen_shape (listeners_of sc (UseHandler (negroni_New hs) r))
      res evs pool ->
    run_shape res (startup_trace c r hs sc ++ evs) pool.


(** The events after the startup: those of the listening phase, the
    return of the join, and the call of HandleStopped. *)
Definition late_event (e : event) : bool :=
  match e with
  | WgWaitEv | HandleStoppedEv _ => true
  | _ => listening_event e
  end.

(** The events that build the handler chain. *)
Definition chain_event (e : event) : bool :=
  match e with
  | NegroniNewEv _ | UseHandlerEv _ => true
  | _ => false
  end.



(** The events of goroutine [i]: the call of its server and its
    termination. *)
Definition of_goroutine (i : nat) (e : event) : bool :=
  match e with
  | ServeEv j _ => Nat.eqb i j
  | ExitEv j => Nat.eqb i j
  | _ => false
  end.

Definition goroutine_trace (i : nat) (tr : list event) : list event :=
  filter (of_goroutine i) tr.

(** What goroutine [i] of a pool has done, by its state: nothing when it
    has not run yet (or does not exist), the call of its server when it
    is serving, and that call followed by its termination when it is
    done. *)
Definition goroutine_history (i : nat) (p : list goroutine) : list event :=
  match nth_error p i with
  | None => []
  | Some g =>
      match g_state g with
      | GCreated => []
      | GServing => [ServeEv i (g_body g)]
      | GDone => [ServeEv i (g_body g); ExitEv i]
      end
  end.

(** The trace tells of every goroutine what its state says it has done. *)
Definition goroutines_traced (w : World) : Prop :=
  forall i, goroutine_trace i (w_trace w) = goroutine_history i (w_pool w).

(** [m] keeps the trace and the states of the goroutines in step. *)
Definition keeps_traced {A} (m : M A) : Prop :=
  forall w, goroutines_traced w -> goroutines_traced (snd (m w)).

(** The scheduler's choices left once the main thread has had its turn. *)
Fixpoint after_turn (sched : list tid) : list tid :=
  match sched with
  | [] => []
  | MainThread :: rest => rest
  | Goroutine _ :: rest => after_turn rest
  end.

End Orchestrator.

Arguments init_world {S Config Router RunFunc} s sched f.
Arguments listening_event {S Config Router} e.
Arguments late_event {S Config Router} e.
Arguments chain_event {S Config Router} e.
Arguments startup_fault {S Config Router} e.
Arguments Returned {A} a.
Arguments Panicked {A} v.
Arguments Blocked {A}.
Arguments LoadConfigEv {S Config Router} res.
Arguments ConfigureLoggingEv {S Config Router} conf res.
Arguments InitResourcesEv {S Config Router} conf res.
Arguments NewRouterEv {S Config Router} r.
Arguments ConfigureRoutesEv {S Config Router} r conf res.
Arguments SetMiddlewareEv {S Config Router} conf res.
Arguments NegroniNewEv {S Config Router} hs.
Arguments UseHandlerEv {S Config Router} r.
Arguments GetServerConfEv {S Config Router} conf res.
Arguments HandleStartEv {S Config Router} host port tlsPort res.
Arguments WgAddEv {S Config Router} delta.
Arguments GoEv {S Config Router} l.
Arguments WgWaitEv {S Config Router}.
Arguments HandleStoppedEv {S Config Router} res.
Arguments ServeEv {S Config Router} i l.
Arguments ExitEv {S Config Router} i.

End App.

(** * Example applications *)

Module Examples.

Import Middleware App.

(** ** Requests *)

Definition get_health : Request := {| Method := "GET"; URL_Path := "/health" |}.

Definition heap0 : Heap unit := mkHeap tt (fun _ => 0).

(** The clock reads 100 and will have advanced by 5, then by 7. *)
Definition world0 : Middleware.World unit :=
  Middleware.mkWorld heap0 100 [5%N; 7%N] [].

(** WriteHeader(code) on writer [id]. *)
Definition write_status (id : nat) (code : Z) (h : Heap unit) : Heap unit :=
  mkHeap (app h) (fun i => if Nat.eqb i id then code else written h i).

(** A handler that answers 200. *)
Definition ok_handler : HandlerFunc unit :=
  fun rw _ => on_heap (fun h => (Ret tt, write_status (writer_id rw) 200 h)).

(** A handler that panics. *)
Definition faulty_handler : HandlerFunc unit :=
  fun _ _ w => (Panic "handler fault", w).

(** A recovery callback in the usual style: it calls recover() and, if a
    panic was in flight, answers 500. *)
Definition recover_500 : RecoverFunc unit :=
  fun rw _ inflight h =>
    (mkDeferred true None,
     match inflight with
     | Some _ => write_status (writer_id rw) 500 h
     | None => h
     end).

(** A callback that does not call recover(). *)
Definition only_observe : RecoverFunc unit :=
  fun _ _ _ h => (mkDeferred false None, h).

Definition quiet_pre : PreLogFunc unit := fun _ _ _ h => (Ret tt, h).
Definition quiet_post : PostLogFunc unit := fun _ _ _ _ h => (Ret tt, h).

Definition logger : loggingMiddleware unit :=
  LoggingMiddleware (Some quiet_pre) (Some quiet_post).

(** ** Applications *)

Definition new_router (s : unit) : nat * unit := (0%nat, s).
Definition serve_routes (_ : nat) : HandlerFunc unit := ok_handler.

Definition server (port tlsPort : Z) : ServerConfig :=
  {| Host := "localhost";
     Port := port;
     GracefulTimeout := 10;
     ReadTimeout := 5;
     WriteTimeout := 7;
     TLSPort := tlsPort;
     TLSCertFile := "cert.pem";
     TLSPrivateKeyFile := "key.pem" |}.

Definition middleware : list (Handler unit) :=
  [ recoveryMiddleware_ServeHTTP (RecoveryMiddleware (Some recover_500));
    loggingMiddleware_ServeHTTP logger ].

(** An application whose callbacks all return. *)
Definition service (port tlsPort : Z) : Gapp unit string nat :=
  {| LoadConfig := fun s => (Ret "conf", s);
     ConfigureLogging := fun _ s => (Ret tt, s);
     InitResources := fun _ s => (Ret tt, s);
     ConfigureRoutes := fun _ _ s => (Ret tt, s);
     SetMiddleware := fun _ s => (Ret middleware, s);
     GetServerConf := fun _ s => (Ret (server port tlsPort), s);
     HandleStart := fun _ _ _ s => (Ret tt, s);
     HandleStopped := fun s => (Ret tt, s) |}.


(** An application whose HandleStart panics. *)
Definition bad_start : Gapp unit string nat :=
  {| LoadConfig := fun s => (Ret "conf", s);
     ConfigureLogging := fun _ s => (Ret tt, s);
     InitResources := fun _ s => (Ret tt, s);
     ConfigureRoutes := fun _ _ s => (Ret tt, s);
     SetMiddleware := fun _ s => (Ret middleware, s);
     GetServerConf := fun _ s => (Ret (server 8080 0), s);
     HandleStart := fun _ _ _ s => (Panic "cannot start", s);
     HandleStopped := fun s => (Ret tt, s) |}.

(** A schedule: the main thread runs up to its first [go]; goroutine 0
    then calls its server; the main thread starts the second listener and
    reaches the join; both servers stop. *)
Definition schedule : list tid :=
  repeat MainThread 12
  ++ [Goroutine 0; MainThread; MainThread; MainThread;
      Goroutine 1; Goroutine 0; Goroutine 1].

(** Run of an application, from a fresh state with [doRunFunc] set to [f]. *)
Definition run (a : Gapp unit string nat) (sched : list tid) (f : nat)
  : result unit * App.World unit string nat nat :=
  Run new_router serve_routes a (init_world tt sched f).

End Examples.

(** * Properties of the middleware *)

Module MiddlewareFacts.

Import Middleware.

Section Facts.

Variable S : Type.

Implicit Types (w : World S) (rw : ResponseWriter) (r : Request)
  (next : HandlerFunc S).

Lemma time_Now_run w :
  exists t, clock w <= t /\
    time_Now w
    = (Ret t, mkWorld (heap w) t (tl (ticks w)) (log w ++ [NowEv t])).
Proof.
  unfold time_Now. eexists. split; [|reflexivity]. lia.
Qed.

Lemma clock_monotone_time_Now : clock_monotone (@time_Now S).
Proof.
  intros w. destruct (time_Now_run w) as (t & Ht & ->). exact Ht.
Qed.


Lemma clock_monotone_bind {A B} (m : M S A) (k : A -> M S B) :
  clock_monotone m -> (forall a, clock_monotone (k a)) ->
  clock_monotone (bind m k).
Proof.
  intros Hm Hk w. unfold bind. specialize (Hm w).
  destruct (m w) as [[a|v] w1]; simpl in *; [|exact Hm].
  specialize (Hk a w1). lia.
Qed.

(** The run of [loggingMiddleware_ServeHTTP], step by step: the clock is
    read, the pre-call callback runs, then [next], then the clock is read
    again and the post-call callback runs. *)
Lemma logging_ServeHTTP_run (l : loggingMiddleware S) rw r next w :
  exists start w1 o1,
    clock w <= start /\ clock w1 = start /\
    log w1 = log w ++ pre_events l r start /\
    (o1, heap w1) = pre_result l r start (heap w) /\
    match o1 with
    | Panic v => loggingMiddleware_ServeHTTP l rw r next w = (Panic v, w1)
    | Ret _ =>
        match next rw r w1 with
        | (Panic v, w2) =>
            loggingMiddleware_ServeHTTP l rw r next w = (Panic v, w2)
        | (Ret _, w2) =>
            match postLogFunc l with
            | None => loggingMiddleware_ServeHTTP l rw r next w = (Ret tt, w2)
            | Some g =>
                exists now,
                  clock w2 <= now /\
                  let st := match exposed_status rw (heap w2) with
                            | Some st => st | None => 0 end in
                  let res := g (Method r) (URL_Path r) st (now - start)
                               (heap w2) in
                  loggingMiddleware_ServeHTTP l rw r next w =
                  (fst res,
                   mkWorld (snd res) now (tl (ticks w2))
                     (log w2 ++ [NowEv now;
                                 PostLogEv (Method r) (URL_Path r) st
                                   (now - start)]))
            end
        end
    end.
Proof.
  destruct (time_Now_run w) as (start & Hle & Hnow).
  remember (loggingMiddleware_ServeHTTP l rw r next w) as X eqn:HX.
  cbv [loggingMiddleware_ServeHTTP bind call_pre call_post emit on_heap ret
       time_Since Status] in HX.
  rewrite Hnow in HX. cbv [pre_events pre_result].
  cbn [heap clock ticks log] in HX.
  assert (Hpost : forall w2 Y,
    Y = match postLogFunc l with
        | Some g =>
            match rw with
            | NegroniWriter id =>
                fun w0 : World S =>
                let (o1, w3) :=
                  let (o1, w3) := time_Now w0 in
                  match o1 with
                  | Ret a1 => (Ret (a1 - start), w3)
                  | Panic v => (Panic v, w3)
                  end in
                match o1 with
                | Ret a1 =>
                    let (o2, h) :=
                      g (Method r) (URL_Path r) (written (heap w0) id) a1
                        (heap w3) in
                    (o2,
                     mkWorld h (clock w3) (ticks w3)
                       (log w3 ++
                        [PostLogEv (Method r) (URL_Path r)
                           (written (heap w0) id) a1]))
                | Panic v => (Panic v, w3)
                end
            | PlainWriter _ =>
                fun w0 : World S =>
                let (o1, w3) :=
                  let (o1, w3) := time_Now w0 in
                  match o1 with
                  | Ret a1 => (Ret (a1 - start), w3)
                  | Panic v => (Panic v, w3)
                  end in
                match o1 with
                | Ret a1 =>
                    let (o2, h) :=
                      g (Method r) (URL_Path r) 0 a1 (heap w3) in
                    (o2,
                     mkWorld h (clock w3) (ticks w3)
                       (log w3 ++ [PostLogEv (Method r) (URL_Path r) 0 a1]))
                | Panic v => (Panic v, w3)
                end
            end
        | None => fun w0 : World S => (Ret tt, w0)
        end w2 ->
    match postLogFunc l with
    | None => Y = (Ret tt, w2)
    | Some g =>
        exists now,
          clock w2 <= now /\
          let st := match exposed_status rw (heap w2) with
                    | Some st => st | None => 0 end in
          let res := g (Method r) (URL_Path r) st (now - start) (heap w2) in
          Y = (fst res,
               mkWorld (snd res) now (tl (ticks w2))
                 (log w2 ++ [NowEv now;
                             PostLogEv (Method r) (URL_Path r) st
                               (now - start)]))
    end).
  { intros w2 Y HY. destruct (postLogFunc l) as [g|]; [|exact HY].
    destruct (time_Now_run w2) as (now & Hle2 & Hnow2).
    exists now. split; [exact Hle2|].
    destruct rw as [id|id]; rewrite Hnow2 in HY;
      cbn [heap clock ticks log exposed_status] in *;
      match goal with |- context [g ?a ?b ?c ?d ?e] =>
        destruct (g a b c d e) end; cbn [fst snd];
      rewrite <- app_assoc in HY; exact HY. }
  destruct (preLogFunc l) as [f|]; cbv beta in HX;
    cbn [heap clock ticks log] in HX.
  - destruct (f (Method r) (URL_Path r) start (heap w)) as [o1 h] eqn:Ef.
    exists start,
      (mkWorld h start (tl (ticks w))
         (log w ++ [NowEv start; PreLogEv (Method r) (URL_Path r) start])),
      o1.
    split; [exact Hle|]. split; [reflexivity|]. split; [reflexivity|].
    split; [cbn [heap]; symmetry; exact Ef|].
    rewrite <- app_assoc in HX. cbn [app] in HX.
    destruct o1 as [[]|v]; [|exact HX].
    destruct (next rw r _) as [[[]|v] w2]; [|exact HX].
    apply Hpost, HX.
  - exists start,
      (mkWorld (heap w) start (tl (ticks w)) (log w ++ [NowEv start])),
      (Ret tt).
    split; [exact Hle|]. split; [reflexivity|]. split; [reflexivity|].
    split; [reflexivity|].
    destruct (next rw r _) as [[[]|v] w2]; [|exact HX].
    apply Hpost, HX.
Qed.

(** The clock does not run backwards through the middleware when it does
    not run backwards through [next]. *)
Lemma clock_monotone_logging (l : loggingMiddleware S) rw r next :
  clock_monotone (next rw r) ->
  clock_monotone (loggingMiddleware_ServeHTTP l rw r next).
Proof.
  intros Hmono w.
  destruct (logging_ServeHTTP_run l rw r next w)
    as (start & w1 & o1 & Hstart & Hclock & _ & _ & Hrun).
  destruct o1 as [[]|v].
  - pose proof (Hmono w1) as Hle.
    destruct (next rw r w1) as [[[]|v] w2]; cbn [snd] in Hle.
    + destruct (postLogFunc l) as [g|].
      * destruct Hrun as (now & Hnow & ->). cbn. lia.
      * rewrite Hrun. cbn. lia.
    + rewrite Hrun. cbn. lia.
  - rewrite Hrun. cbn. lia.
Qed.

Lemma clock_monotone_recovery (rec : recoveryMiddleware S) rw r next :
  clock_monotone (next rw r) ->
  clock_monotone (recoveryMiddleware_ServeHTTP rec rw r next).
Proof.
  intros Hmono w. unfold recoveryMiddleware_ServeHTTP.
  destruct (recoverFunc rec) as [f|]; [|apply Hmono].
  unfold with_defer. pose proof (Hmono w) as Hle.
  destruct (next rw r w) as [o w1]. cbn [snd] in Hle.
  destruct (f rw r (panic_of o) (heap w1)). exact Hle.
Qed.

(** ** Recovery middleware *)

(** C1 (amended): with a recovery callback, the callback is called once
    per request, with the response writer and the request, when [next]
    has finished, by return or by fault, and before a fault leaves the
    frame; it runs on the heap [next] left.  The middleware completes
    normally exactly when the callback raises nothing and either [next]
    returned or the callback called recover(); a fault the callback does
    not recover keeps propagating.  Without a callback the middleware is
    [next]: faults propagate unhandled. *)
Theorem recovery_callback_deferred (rec : recoveryMiddleware S) rw r next w :
  let o := fst (next rw r w) in
  let w1 := snd (next rw r w) in
  let res := recoveryMiddleware_ServeHTTP rec rw r next w in
  match recoverFunc rec with
  | None => res = next rw r w
  | Some f =>
      let d := fst (f rw r (panic_of o) (heap w1)) in
      log (snd res) = log w1 ++ [RecoverEv rw r (panic_of o)] /\
      heap (snd res) = snd (f rw r (panic_of o) (heap w1)) /\
      fst res = after_deferred (panic_of o) d /\
      (fst res = Ret tt <->
       raised d = None /\ (panic_of o = None \/ recovered d = true)) /\
      (forall v, panic_of o = Some v -> raised d = None ->
                 recovered d = false -> fst res = Panic v)
  end.
Proof.
  cbn zeta. unfold recoveryMiddleware_ServeHTTP.
  destruct (recoverFunc rec) as [f|]; [|reflexivity].
  unfold with_defer. destruct (next rw r w) as [o w1]. cbn [fst snd].
  destruct (f rw r (panic_of o) (heap w1)) as [d h]. cbn [fst snd log heap].
  split; [reflexivity|]. split; [reflexivity|]. split; [reflexivity|].
  unfold after_deferred.
  destruct (raised d) as [v'|], (panic_of o) as [v|], (recovered d);
    (split; [split|]);
    try solve [ intros; try discriminate; auto
              | intros [H1 [H2|H2]]; try discriminate; auto
              | intros v0 Hv; intros; try discriminate;
                injection Hv as ->; reflexivity ].
Qed.

(** ** Logging middleware *)

(** C5: when the post-call callback is present and [next] has returned,
    the callback is called with the status the writer holds at that
    moment if the writer is a negroni.ResponseWriter, and with 0 if it is
    not, whatever status the writer holds. *)
Theorem logging_post_status (l : loggingMiddleware S) g rw r next w o w' :
  postLogFunc l = Some g ->
  loggingMiddleware_ServeHTTP l rw r next w = (o, w') ->
  exists start w1 o1,
    log w1 = log w ++ pre_events l r start /\
    (o1, heap w1) = pre_result l r start (heap w) /\
    match o1 with
    | Panic v => o = Panic v /\ w' = w1
    | Ret _ =>
        match next rw r w1 with
        | (Panic v, w2) => o = Panic v /\ w' = w2
        | (Ret _, w2) =>
            exists now,
              let st := match rw with
                        | NegroniWriter id => written (heap w2) id
                        | PlainWriter _ => 0
                        end in
              log w' = log w2 ++ [NowEv now;
                                  PostLogEv (Method r) (URL_Path r) st
                                    (now - start)] /\
              (o, heap w')
              = g (Method r) (URL_Path r) st (now - start) (heap w2)
        end
    end.
Proof.
  intros Hg HR.
  destruct (logging_ServeHTTP_run l rw r next w)
    as (start & w1 & o1 & _ & _ & Hlog & Hpre & Hrun).
  exists start, w1, o1. split; [exact Hlog|]. split; [exact Hpre|].
  rewrite HR, Hg in Hrun. destruct o1 as [[]|v].
  - destruct (next rw r w1) as [[[]|v] w2].
    + destruct Hrun as (now & _ & Hrun). exists now. cbn zeta in *.
      replace (match rw with
               | NegroniWriter id => written (heap w2) id
               | PlainWriter _ => 0
               end)
        with (match exposed_status rw (heap w2) with
              | Some st => st | None => 0 end)
        by (destruct rw; reflexivity).
      injection Hrun as -> ->. cbn [log heap]. split; [reflexivity|].
      symmetry. apply surjective_pairing.
    + injection Hrun as -> ->. auto.
  - injection Hrun as -> ->. auto.
Qed.


(** ** The two middleware together *)

(** X1: with the recovery middleware around the logging middleware, a
    fault of the handler below reaches the recovery callback at once:
    the post-call callback is not called in between (the log the handler
    left is followed by the call of the recovery callback only), and the
    request ends as the recovery callback decides. *)
Theorem fault_below_logging_skips_post_call (l : loggingMiddleware S)
    (f : RecoverFunc S) rw r next w :
  let inner : HandlerFunc S :=
    fun rw' r' => loggingMiddleware_ServeHTTP l rw' r' next in
  let res :=
    recoveryMiddleware_ServeHTTP (RecoveryMiddleware (Some f)) rw r inner w in
  exists start w1 o1,
    log w1 = log w ++ pre_events l r start /\
    (o1, heap w1) = pre_result l r start (heap w) /\
    forall v w2,
      o1 = Ret tt -> next rw r w1 = (Panic v, w2) ->
      log (snd res) = log w2 ++ [RecoverEv rw r (Some v)] /\
      heap (snd res) = snd (f rw r (Some v) (heap w2)) /\
      fst res = after_deferred (Some v) (fst (f rw r (Some v) (heap w2))).
Proof.
  cbn zeta.
  destruct (logging_ServeHTTP_run l rw r next w)
    as (start & w1 & o1 & _ & _ & Hlog & Hpre & Hrun).
  exists start, w1, o1. split; [exact Hlog|]. split; [exact Hpre|].
  intros v w2 -> Hnext. rewrite Hnext in Hrun.
  unfold recoveryMiddleware_ServeHTTP, RecoveryMiddleware, with_defer.
  cbn [recoverFunc]. rewrite Hrun. cbn [panic_of].
  destruct (f rw r (Some v) (heap w2)) as [d h]. auto.
Qed.

(** X2: with the logging middleware around the recovery middleware, a
    fault the recovery callback recovers is logged: when the recovery
    middleware completes normally, the post-call callback is called after
    the recovery callback, with the status the writer holds once that
    callback has run (0 for a writer that does not expose it).  A fault of
    the pre-call callback, which is raised above the recovery middleware,
    is not seen by the recovery callback. *)
Theorem recovered_fault_is_logged (l : loggingMiddleware S) g
    (f : RecoverFunc S) rw r next w :
  postLogFunc l = Some g ->
  let inner : HandlerFunc S :=
    fun rw' r' =>
      recoveryMiddleware_ServeHTTP (RecoveryMiddleware (Some f)) rw' r' next in
  let res := loggingMiddleware_ServeHTTP l rw r inner w in
  exists start w1 o1,
    log w1 = log w ++ pre_events l r start /\
    (o1, heap w1) = pre_result l r start (heap w) /\
    (forall v, o1 = Panic v -> fst res = Panic v /\ snd res = w1) /\
    (o1 = Ret tt ->
     let o := fst (next rw r w1) in
     let w2 := snd (next rw r w1) in
     let d := fst (f rw r (panic_of o) (heap w2)) in
     let h := snd (f rw r (panic_of o) (heap w2)) in
     after_deferred (panic_of o) d = Ret tt ->
     exists now,
       let st := match rw with
                 | NegroniWriter id => written h id
                 | PlainWriter _ => 0
                 end in
       log (snd res)
       = log w2 ++ [RecoverEv rw r (panic_of o); NowEv now;
                    PostLogEv (Method r) (URL_Path r) st (now - start)] /\
       (fst res, heap (snd res))
       = g (Method r) (URL_Path r) st (now - start) h).
Proof.
  intros Hg inner. cbn zeta.
  destruct (logging_ServeHTTP_run l rw r inner w)
    as (start & w1 & o1 & _ & _ & Hlog & Hpre & Hrun).
  exists start, w1, o1. split; [exact Hlog|]. split; [exact Hpre|]. split.
  - intros v ->. rewrite Hrun. auto.
  - intros ->. rewrite Hg in Hrun.
    assert (Hin : inner rw r w1
                  = with_defer f rw r (next rw r) w1) by reflexivity.
    unfold with_defer in Hin.
    destruct (next rw r w1) as [o w2]. cbn [fst snd].
    destruct (f rw r (panic_of o) (heap w2)) as [d h]. cbn [fst snd].
    intros Hok. rewrite Hin, Hok in Hrun.
    destruct Hrun as (now & _ & Hrun). exists now.
    cbn zeta in Hrun. cbn [heap log] in Hrun.
    replace (match rw with
             | NegroniWriter id => written h id
             | PlainWriter _ => 0
             end)
      with (match exposed_status rw h with Some st => st | None => 0 end)
      by (destruct rw; reflexivity).
    rewrite Hrun. cbn [fst snd log heap]. rewrite <- app_assoc.
    split; [reflexivity|]. symmetry. apply surjective_pairing.
Qed.

End Facts.

(** ** The middleware on example requests *)

Import Examples.

(** C1, as the contract states it, fails twice: the callback is also
    called when the handler returns, and a callback that does not call
    recover() does not stop the fault. *)
Lemma recovery_callback_runs_without_fault :
  ~ recovers_only_faults recover_500 (NegroniWriter 0) get_health
      ok_handler world0 /\
  ~ recovers_only_faults only_observe (NegroniWriter 0) get_health
      faulty_handler world0.
Proof.
  split; unfold recovers_only_faults; cbn; intros [H1 H2]; discriminate.
Qed.

Lemma logging_post_status_witness :
  let rw := NegroniWriter 0 in
  let res := loggingMiddleware_ServeHTTP logger rw get_health ok_handler
               world0 in
  postLogFunc logger = Some quiet_post /\
  res = (fst res, snd res) /\
  exists start w1 o1,
    log w1 = log world0 ++ pre_events logger get_health start /\
    (o1, heap w1) = pre_result logger get_health start (heap world0) /\
    match o1 with
    | Panic v => fst res = Panic v /\ snd res = w1
    | Ret _ =>
        match ok_handler rw get_health w1 with
        | (Panic v, w2) => fst res = Panic v /\ snd res = w2
        | (Ret _, w2) =>
            exists now,
              let st := match rw with
                        | NegroniWriter id => written (heap w2) id
                        | PlainWriter _ => 0
                        end in
              log (snd res)
              = log w2 ++ [NowEv now;
                           PostLogEv (Method get_health)
                             (URL_Path get_health) st (now - start)] /\
              (fst res, heap (snd res))
              = quiet_post (Method get_health) (URL_Path get_health) st
                  (now - start) (heap w2)
        end
    end.
Proof.
  cbn zeta.
  refine ((fun H1 H2 =>
             conj H1 (conj H2 (logging_post_status logger _ _ _ _ H1 H2)))
            _ _).
  - reflexivity.
  - apply surjective_pairing.
Defined.


Lemma recovered_fault_is_logged_witness :
  let rw := NegroniWriter 0 in
  let inner : HandlerFunc unit :=
    fun rw' r' =>
      recoveryMiddleware_ServeHTTP (RecoveryMiddleware (Some recover_500))
        rw' r' faulty_handler in
  let res := loggingMiddleware_ServeHTTP logger rw get_health inner world0 in
  postLogFunc logger = Some quiet_post /\
  fst res = Ret tt /\
  In (PostLogEv "GET" "/health" 500 7) (log (snd res)) /\
  exists start w1 o1,
    log w1 = log world0 ++ pre_events logger get_health start /\
    (o1, heap w1) = pre_result logger get_health start (heap world0) /\
    (forall v, o1 = Panic v -> fst res = Panic v /\ snd res = w1) /\
    (o1 = Ret tt ->
     let o := fst (faulty_handler rw get_health w1) in
     let w2 := snd (faulty_handler rw get_health w1) in
     let d := fst (recover_500 rw get_health (panic_of o) (heap w2)) in
     let h := snd (recover_500 rw get_health (panic_of o) (heap w2)) in
     after_deferred (panic_of o) d = Ret tt ->
     exists now,
       let st := match rw with
                 | NegroniWriter id => written h id
                 | PlainWriter _ => 0
                 end in
       log (snd res)
       = log w2 ++ [RecoverEv rw get_health (panic_of o); NowEv now;
                    PostLogEv (Method get_health) (URL_Path get_health) st
                      (now - start)] /\
       (fst res, heap (snd res))
       = quiet_post (Method get_health) (URL_Path get_health) st
           (now - start) h).
Proof.
  cbn zeta.
  refine ((fun H1 =>
             conj H1 (conj _ (conj _
               (recovered_fault_is_logged logger recover_500 _ _
                  faulty_handler _ H1)))) _).
  - reflexivity.
  - vm_compute. auto 10.
  - reflexivity.
Defined.

End MiddlewareFacts.

(** * Properties of the orchestrator *)

Module AppFacts.

Import Middleware App.

Section Facts.

Variables (S Config Router : Type).
Variable mux_NewRouter : S -> Router * S.
Variable Router_ServeHTTP : Router -> HandlerFunc S.
Variable RunFunc : Type.

Local Abbreviation World := (App.World S Config Router RunFunc).
Local Abbreviation event := (App.event S Config Router).
Local Abbreviation goroutine := (App.goroutine S).
Local Abbreviation listener := (App.listener S).
Local Abbreviation Gapp := (App.Gapp S Config Router).
Local Abbreviation Run :=
  (App.Run mux_NewRouter Router_ServeHTTP (RunFunc:=RunFunc)).
Local Abbreviation initApp :=
  (App.initApp mux_NewRouter Router_ServeHTTP (RunFunc:=RunFunc)).

Implicit Types (w : World) (p : list goroutine) (tr evs : list event)
  (i j : nat) (g : goroutine) (st : gstate) (sched : list tid).

Ltac case_ifs :=
  repeat match goal with
         | |- context [if ?b then _ else _] => destruct b
         end.

(** ** The goroutine pool *)

Lemma nth_error_set_state_eq p : forall i st g,
  nth_error p i = Some g ->
  nth_error (set_state i st p) i
  = Some {| g_body := g_body g; g_state := st |}.
Proof.
  induction p as [|g0 p IH]; intros [|i] st g H; simpl in *;
    try discriminate.
  - inversion H; subst. reflexivity.
  - apply IH, H.
Qed.

Lemma nth_error_set_state_neq p : forall i j st,
  i <> j -> nth_error (set_state i st p) j = nth_error p j.
Proof.
  induction p as [|g0 p IH]; intros [|i] [|j] st H; simpl;
    try reflexivity; try congruence.
  apply IH. congruence.
Qed.

Lemma map_g_body_set_state p : forall i st,
  map (@g_body S) (set_state i st p) = map (@g_body S) p.
Proof.
  induction p as [|g0 p IH]; intros [|i] st; simpl; try reflexivity.
  f_equal. apply IH.
Qed.

Lemma length_set_state p : forall i st,
  List.length (set_state i st p) = List.length p.
Proof.
  intros i st.
  rewrite <- (length_map (@g_body S)), map_g_body_set_state.
  apply length_map.
Qed.

Lemma live_cons g p :
  live (g :: p) = (if done g then 0 else 1) + live p.
Proof.
  unfold live. cbn [filter]. destruct (done g); cbn [negb List.length]; lia.
Qed.

Lemma live_nonneg p : 0 <= live p.
Proof. unfold live. lia. Qed.

Lemma live_set_state p : forall i st g,
  nth_error p i = Some g ->
  live (set_state i st p)
  = live p - (if done g then 0 else 1)
    + (if done {| g_body := g_body g; g_state := st |} then 0 else 1).
Proof.
  induction p as [|g0 p IH]; intros [|i] st g H; simpl in *;
    try discriminate.
  - inversion H; subst. rewrite !live_cons. case_ifs; lia.
  - rewrite !live_cons, (IH _ _ _ H). case_ifs; lia.
Qed.

Lemma live_app p g :
  live (p ++ [g]) = live p + (if done g then 0 else 1).
Proof.
  induction p as [|g0 p IH]; simpl.
  - rewrite live_cons. unfold live. cbn [filter List.length]. lia.
  - rewrite !live_cons, IH. lia.
Qed.

Lemma live_zero_done p :
  live p = 0 -> forall i g, nth_error p i = Some g -> done g = true.
Proof.
  induction p as [|g0 p IH]; intros H [|i] g Hg; simpl in *;
    try discriminate; rewrite live_cons in H; pose proof (live_nonneg p).
  - inversion Hg; subst. destruct (done g); [reflexivity | lia].
  - apply (IH ltac:(destruct (done g0); lia) i g Hg).
Qed.

Lemma started_app tr1 tr2 : started (tr1 ++ tr2) = started tr1 ++ started tr2.
Proof.
  induction tr1 as [|e tr1 IH]; simpl; [reflexivity|].
  destruct e; simpl; rewrite ?IH; reflexivity.
Qed.

Lemma In_started tr (l : listener) : In (GoEv l) tr <-> In l (started tr).
Proof.
  induction tr as [|e tr IH]; simpl; [tauto|].
  destruct e; simpl; rewrite <- ?IH;
    try (split; [intros [H|H]; [discriminate | exact H] | tauto]).
  split; intros [H|H]; try tauto; left; congruence.
Qed.

(** ** Goroutine steps *)

Lemma step_goroutine_frame i w :
  w_heap (step_goroutine i w) = w_heap w /\
  w_sched (step_goroutine i w) = w_sched w /\
  doRunFunc (step_goroutine i w) = doRunFunc w.
Proof.
  unfold step_goroutine. destruct (nth_error (w_pool w) i) as [g|];
    [destruct (g_state g)|]; simpl; auto.
Qed.

Lemma step_goroutine_all_done i w :
  (forall j g, nth_error (w_pool w) j = Some g -> done g = true) ->
  step_goroutine i w = w.
Proof.
  intros H. unfold step_goroutine.
  destruct (nth_error (w_pool w) i) as [g|] eqn:E; [|reflexivity].
  specialize (H i g E). unfold done in H.
  destruct (g_state g); try discriminate. reflexivity.
Qed.

Lemma step_goroutine_listening tr0 ls k i w :
  listening tr0 ls k w -> listening tr0 ls k (step_goroutine i w).
Proof.
  intros (evs & Htr & Hev & Hst & Hbody & Hwg & Hexit).
  unfold step_goroutine.
  destruct (nth_error (w_pool w) i) as [g|] eqn:E;
    [|exists evs; auto 10].
  destruct (g_state g) eqn:Eg.
  - exists (evs ++ [ServeEv i (g_body g)]). cbn [w_trace w_pool w_wg].
    rewrite Htr, app_assoc, forallb_app, Hev, started_app, Hst,
      map_g_body_set_state, (live_set_state _ _ GServing E).
    unfold done at 1 2. rewrite Eg. cbn. rewrite app_nil_r.
    repeat split; auto; try lia.
    intros j g' Hj Hd. apply in_or_app. left.
    destruct (Nat.eq_dec i j) as [->|Hne].
    + rewrite (nth_error_set_state_eq _ _ GServing E) in Hj.
      inversion Hj; subst. discriminate.
    + rewrite nth_error_set_state_neq in Hj by exact Hne. eauto.
  - exists (evs ++ [ExitEv i]). cbn [w_trace w_pool w_wg].
    rewrite Htr, app_assoc, forallb_app, Hev, started_app, Hst,
      map_g_body_set_state, (live_set_state _ _ GDone E).
    unfold done at 1 2. rewrite Eg. cbn. rewrite app_nil_r.
    repeat split; auto; try lia.
    intros j g' Hj Hd. apply in_or_app.
    destruct (Nat.eq_dec i j) as [->|Hne].
    + right. left. reflexivity.
    + left. rewrite nth_error_set_state_neq in Hj by exact Hne. eauto.
  - exists evs; auto 10.
Qed.

Lemma run_others_sched sched : forall w,
  fst (run_others sched w) = after_turn sched.
Proof.
  induction sched as [|[|i] sched IH]; intros w; simpl; auto.
Qed.

Lemma run_others_frame sched : forall w,
  w_heap (snd (run_others sched w)) = w_heap w /\
  w_sched (snd (run_others sched w)) = w_sched w /\
  doRunFunc (snd (run_others sched w)) = doRunFunc w.
Proof.
  induction sched as [|[|i] sched IH]; intros w; simpl; auto.
  destruct (IH (step_goroutine i w)) as (H1 & H2 & H3).
  destruct (step_goroutine_frame i w) as (F1 & F2 & F3).
  rewrite H1, H2, H3. auto.
Qed.

Lemma run_others_listening tr0 ls k sched : forall w,
  listening tr0 ls k w -> listening tr0 ls k (snd (run_others sched w)).
Proof.
  induction sched as [|[|i] sched IH]; intros w H; simpl; auto.
  apply IH, step_goroutine_listening, H.
Qed.

Lemma run_others_all_done sched : forall w,
  (forall j g, nth_error (w_pool w) j = Some g -> done g = true) ->
  run_others sched w = (after_turn sched, w).
Proof.
  induction sched as [|[|i] sched IH]; intros w H; simpl; auto.
  rewrite step_goroutine_all_done by exact H. apply IH, H.
Qed.

Lemma run_others_no_goroutine sched (s : S) tr n (d : RunFunc) sched0 :
  run_others sched (mkWorld s tr n [] sched0 d)
  = (after_turn sched, mkWorld s tr n [] sched0 d).
Proof.
  apply run_others_all_done. intros [|j] g H; discriminate.
Qed.

(** ** Statements of the listening phase *)

Lemma listening_set_sched tr0 ls k sched w :
  listening tr0 ls k w -> listening tr0 ls k (set_sched sched w).
Proof. intros H. exact H. Qed.

Lemma yield_listening tr0 ls k w :
  listening tr0 ls k w ->
  exists w1, yield w = (Returned tt, w1) /\ listening tr0 ls k w1 /\
             w_heap w1 = w_heap w /\ doRunFunc w1 = doRunFunc w.
Proof.
  intros H. unfold yield.
  pose proof (run_others_listening (w_sched w) H) as H1.
  destruct (run_others_frame (w_sched w) w) as (F1 & _ & F3).
  destruct (run_others (w_sched w) w) as [sched w1]. simpl in *.
  eexists. split; [reflexivity|]. auto using listening_set_sched.
Qed.

Lemma wg_Add_listening tr0 ls k w :
  listening tr0 ls k w ->
  exists w1, wg_Add 1 w = (Returned tt, w1) /\ listening tr0 ls (k + 1) w1.
Proof.
  intros H. destruct (yield_listening H) as (w1 & E & H1 & _).
  unfold wg_Add, mbind. rewrite E. eexists. split; [reflexivity|].
  destruct H1 as (evs & Htr & Hev & Hst & Hbody & Hwg & Hexit).
  exists (evs ++ [WgAddEv 1]). cbn [w_trace w_pool w_wg].
  rewrite Htr, app_assoc, forallb_app, Hev, started_app, Hst, Hwg.
  cbn. rewrite app_nil_r. repeat split; auto; try lia.
  intros i g Hi Hd. apply in_or_app. left. eauto.
Qed.

Lemma go_listening tr0 ls k (l : listener) w :
  listening tr0 ls (k + 1) w ->
  exists w1, go l w = (Returned tt, w1) /\ listening tr0 (ls ++ [l]) k w1.
Proof.
  intros H. destruct (yield_listening H) as (w1 & E & H1 & _).
  unfold go, mbind. rewrite E. eexists. split; [reflexivity|].
  destruct H1 as (evs & Htr & Hev & Hst & Hbody & Hwg & Hexit).
  exists (evs ++ [GoEv l]). cbn [w_trace w_pool w_wg].
  rewrite Htr, app_assoc, forallb_app, Hev, started_app, Hst, Hwg,
    map_app, Hbody, live_app.
  cbn. repeat split; auto; try lia.
  intros i g Hi Hd. apply in_or_app. left.
  destruct (Nat.lt_ge_cases i (List.length (w_pool w1))) as [Hlt|Hge].
  - rewrite nth_error_app1 in Hi by exact Hlt. eauto.
  - rewrite nth_error_app2 in Hi by exact Hge.
    destruct (i - List.length (w_pool w1))%nat as [|j]; simpl in Hi.
    + inversion Hi; subst. discriminate.
    + destruct j; discriminate.
Qed.

Lemma wait_loop_listening tr0 ls sched : forall w,
  listening tr0 ls 0 w ->
  (exists w1, wait_loop sched w = (Blocked, w1) /\ listening tr0 ls 0 w1) \/
  (exists w0 sched',
      wait_loop sched w
      = (Returned tt, log_event WgWaitEv (set_sched sched' w0)) /\
      listening tr0 ls 0 w0 /\ w_wg w0 = 0).
Proof.
  induction sched as [|[|i] sched IH]; intros w H; simpl;
    destruct (w_wg w =? 0) eqn:E;
    try (right; exists w; eexists; split; [reflexivity|]; split;
         [exact H | apply Z.eqb_eq, E]).
  - left. eexists. split; [reflexivity|]. exact H.
  - destruct sched; apply IH, H.
  - apply (IH (step_goroutine i w)), step_goroutine_listening, H.
Qed.

Lemma wg_Wait_listening tr0 ls w :
  listening tr0 ls 0 w ->
  (exists w1, wg_Wait w = (Blocked, w1) /\ listening tr0 ls 0 w1) \/
  (exists w0 sched',
      wg_Wait w = (Returned tt, log_event WgWaitEv (set_sched sched' w0)) /\
      listening tr0 ls 0 w0 /\ w_wg w0 = 0).
Proof.
  intros H. destruct (yield_listening H) as (w1 & E & H1 & _).
  unfold wg_Wait, mbind. rewrite E. apply wait_loop_listening, H1.
Qed.

Lemma start_listener tr0 ls (b : bool) (l : listener) w :
  listening tr0 ls 0 w ->
  exists w1,
    (if b then mbind (wg_Add 1) (fun _ => go l) else mret tt) w
    = (Returned tt, w1) /\
    listening tr0 (ls ++ (if b then [l] else [])) 0 w1.
Proof.
  intros H. destruct b.
  - destruct (wg_Add_listening H) as (w1 & E1 & H1).
    destruct (@go_listening tr0 ls 0 l w1 H1) as (w2 & E2 & H2).
    exists w2. unfold mbind. rewrite E1, E2. auto.
  - exists w. rewrite app_nil_r. auto.
Qed.

(** The listening phase, from a state with no goroutine and a zero
    counter, ends in one of the two ways of [listen_shape]. *)
Lemma listen_phase_shape (app : Gapp) sc n tr0 w :
  listening tr0 [] 0 w ->
  exists evs,
    w_trace (snd (listen_phase app sc n w)) = tr0 ++ evs /\
    listen_shape (listeners_of sc n) (fst (listen_phase app sc n w)) evs
      (w_pool (snd (listen_phase app sc n w))).
Proof.
  intros H. unfold listeners_of.
  destruct (start_listener (0 <? Port sc) (http_listener sc n) H)
    as (w1 & E1 & H1).
  destruct (start_listener (0 <? TLSPort sc) (tls_listener sc n) H1)
    as (w2 & E2 & H2).
  cbn [List.app] in H1, H2.
  destruct (listen_phase app sc n w) as [res w'] eqn:HX. cbn [fst snd].
  unfold listen_phase, mbind in HX, E1, E2. rewrite E1, E2 in HX.
  destruct (wg_Wait_listening H2)
    as [(w3 & E3 & H3) | (w0 & sched' & E3 & H3 & Hwg)]; rewrite E3 in HX.
  - inversion HX; subst res w'.
    destruct H3 as (evs & Htr & Hev & Hst & Hbody & _).
    exists evs. split; [exact Htr|].
    apply listen_blocked; assumption.
  - destruct H3 as (evs & Htr & Hev & Hst & Hbody & Hlive & Hexit).
    assert (Hdone : forall i g, nth_error (w_pool w0) i = Some g ->
                                done g = true).
    { apply live_zero_done. lia. }
    unfold call, mbind, yield in HX.
    rewrite run_others_all_done in HX by exact Hdone.
    cbn [w_heap w_trace w_pool w_wg w_sched doRunFunc log_event set_sched]
      in HX.
    destruct (HandleStopped app (w_heap w0)) as [o s'].
    inversion HX; subst res w'.
    exists (evs ++ [WgWaitEv; HandleStoppedEv o]).
    cbn [w_trace w_pool]. rewrite Htr, <- !app_assoc.
    split; [reflexivity|].
    apply listen_stopped; auto.
    intros i g Hi. split; eauto.
Qed.

(** ** Statements of the startup, when no goroutine exists yet *)

Lemma call_no_goroutine {A} (f : S -> outcome A * S) (ev : outcome A -> event)
    (s : S) tr n sched (d : RunFunc) :
  call f ev (mkWorld s tr n [] sched d)
  = (lift (fst (f s)),
     mkWorld (snd (f s)) (tr ++ [ev (fst (f s))]) n [] (after_turn sched) d).
Proof.
  unfold call, mbind, yield. cbn [w_sched].
  rewrite run_others_no_goroutine. cbn. destruct (f s). reflexivity.
Qed.

Lemma NewRouter_no_goroutine (s : S) tr n sched (d : RunFunc) :
  NewRouter mux_NewRouter (mkWorld s tr n [] sched d)
  = (Returned (fst (mux_NewRouter s)),
     mkWorld (snd (mux_NewRouter s))
       (tr ++ [NewRouterEv (fst (mux_NewRouter s))]) n []
       (after_turn sched) d).
Proof.
  unfold NewRouter, mbind, yield. cbn [w_sched].
  rewrite run_others_no_goroutine. cbn. destruct (mux_NewRouter s).
  reflexivity.
Qed.

Lemma New_no_goroutine hs (s : S) tr n sched (d : RunFunc) :
  New hs (mkWorld s tr n [] sched d)
  = (Returned (negroni_New hs),
     mkWorld s (tr ++ [NegroniNewEv hs]) n [] (after_turn sched) d).
Proof.
  unfold New, mbind, yield. cbn [w_sched].
  rewrite run_others_no_goroutine. reflexivity.
Qed.

Lemma Use_no_goroutine ng r (s : S) tr n sched (d : RunFunc) :
  Use Router_ServeHTTP ng r (mkWorld s tr n [] sched d)
  = (Returned (UseHandler Router_ServeHTTP ng r),
     mkWorld s (tr ++ [UseHandlerEv r]) n [] (after_turn sched) d).
Proof.
  unfold Use, mbind, yield. cbn [w_sched].
  rewrite run_others_no_goroutine. reflexivity.
Qed.

Lemma Run_unfold (app : Gapp) :
  Run app
  = mbind (initApp app)
      (fun cn =>
         let (config, n) := cn in
         mbind (call (GetServerConf app config) (GetServerConfEv config))
           (fun serverConfig =>
              mbind
                (call (HandleStart app (Host serverConfig)
                         (Port serverConfig) (TLSPort serverConfig))
                      (HandleStartEv (Host serverConfig) (Port serverConfig)
                         (TLSPort serverConfig)))
                (fun _ =>
                   mbind
                     (if (Port serverConfig <=? 0)
                         && (TLSPort serverConfig <=? 0)
                      then panic no_ports
                      else mret tt)
                     (fun _ =>
                        listen_phase app serverConfig n)))).
Proof. reflexivity. Qed.

(** Executes the next callback of a startup in hypothesis [HX]. *)
Ltac startup_call HX f :=
  rewrite call_no_goroutine in HX;
  let o := fresh "o" in
  let s := fresh "s" in
  destruct f as [o s]; cbn [fst snd lift] in HX;
  destruct o as [?|?]; cbn [lift] in HX.

Ltac shape_done HX :=
  repeat match goal with u : unit |- _ => destruct u end;
  inversion HX; subst; cbn [w_trace w_pool]; constructor.

(** Every run of Run has one of the shapes of [run_shape]. *)
Lemma Run_shape (app : Gapp) (s : S) sched (f : RunFunc) :
  run_shape Router_ServeHTTP
    (fst (Run app (init_world s sched f)))
    (w_trace (snd (Run app (init_world s sched f))))
    (w_pool (snd (Run app (init_world s sched f)))).
Proof.
  destruct (Run app (init_world s sched f)) as [res w'] eqn:HX.
  cbn [fst snd]. rewrite Run_unfold in HX.
  unfold initApp, init_world, mbind, mret in HX.
  startup_call HX (LoadConfig app s); [|shape_done HX].
  startup_call HX (ConfigureLogging app a s0); [|shape_done HX].
  startup_call HX (InitResources app a s1); [|shape_done HX].
  rewrite NewRouter_no_goroutine in HX.
  destruct (mux_NewRouter s2) as [r s3]; cbn [fst snd] in HX.
  startup_call HX (ConfigureRoutes app r a s3); [|shape_done HX].
  startup_call HX (SetMiddleware app a s4); [|shape_done HX].
  rewrite New_no_goroutine, Use_no_goroutine in HX.
  startup_call HX (GetServerConf app a s5); [|shape_done HX].
  startup_call HX (HandleStart app (Host a4) (Port a4) (TLSPort a4) s6);
    [|shape_done HX].
  destruct a0, a1, a2, a5. cbn [List.app] in HX.
  destruct ((Port a4 <=? 0) && (TLSPort a4 <=? 0)) eqn:Eports.
  - apply andb_prop in Eports. destruct Eports as [E1 E2].
    apply Z.leb_le in E1, E2.
    unfold panic in HX. inversion HX; subst. cbn [w_trace w_pool].
    exact (run_no_ports Router_ServeHTTP a r a3 a4 E1 E2).
  - apply andb_false_iff in Eports.
    rewrite !Z.leb_gt in Eports.
    match type of HX with listen_phase _ _ _ ?w0 = _ =>
      assert (H0 : listening (w_trace w0) [] 0 w0)
        by (exists []; cbn; rewrite ?app_nil_r; repeat split; auto;
            intros [|i] g Hi; discriminate);
      destruct (listen_phase_shape app a4
                  (UseHandler Router_ServeHTTP (negroni_New a3) r) H0)
        as (evs & Htr & Hshape)
    end.
    rewrite HX in Htr, Hshape. cbn [fst snd w_trace] in Htr, Hshape.
    rewrite Htr. exact (run_listens Router_ServeHTTP a r a3 a4 Eports Hshape).
Qed.

Lemma Run_cases (app : Gapp) (s : S) sched (f : RunFunc) res w' :
  Run app (init_world s sched f) = (res, w') ->
  run_shape Router_ServeHTTP res (w_trace w') (w_pool w').
Proof.
  intros H. pose proof (Run_shape app s sched f) as Hs.
  rewrite H in Hs. exact Hs.
Qed.

(** ** Traces of the listening phase *)

Lemma listening_event_late (e : event) :
  listening_event e = true -> late_event e = true.
Proof. destruct e; simpl; auto. Qed.

Lemma listen_shape_late ls res evs pool :
  listen_shape ls res evs pool -> forallb late_event evs = true.
Proof.
  assert (Hl : forall l : list event, forallb listening_event l = true ->
                         forallb late_event l = true).
  { intros l. rewrite !forallb_forall.
    intros H e He. apply listening_event_late, H, He. }
  intros [evs' pool' Hev _ _ | o evs' pool' Hev _ _ _].
  - apply Hl, Hev.
  - rewrite forallb_app, (Hl _ Hev). reflexivity.
Qed.

Lemma listen_shape_started ls res evs pool :
  listen_shape ls res evs pool ->
  started evs = ls /\ map (@g_body S) pool = ls.
Proof.
  intros [evs' pool' _ Hst Hb | o evs' pool' _ Hst Hb _]; split; auto.
  rewrite started_app, Hst. apply app_nil_r.
Qed.

Lemma late_in [evs] [e : event] :
  forallb late_event evs = true -> In e evs -> late_event e = true.
Proof. intros H. apply (proj1 (forallb_forall _ _) H). Qed.



Lemma listeners_of_handler sc n (l : listener) :
  In l (listeners_of sc n) -> Handler_ (Server (srv l)) = n.
Proof.
  unfold listeners_of. intros H. apply in_app_or in H.
  destruct H as [H|H]; [destruct (0 <? Port sc) | destruct (0 <? TLSPort sc)];
    simpl in H; try contradiction; destruct H as [<-|[]]; reflexivity.
Qed.

(** Splits membership in an explicit list into its cases, dropping those
    that equate different events. *)
Ltac in_cases H :=
  cbn [In startup_trace] in H;
  repeat match type of H with
         | _ \/ _ => destruct H as [H|H]; [try discriminate H|]
         end;
  try discriminate H; try contradiction H.

(** Turns the shape of a run into its cases. *)
Ltac shape_cases HR w' :=
  apply Run_cases in HR;
  let tr := fresh "tr" in
  let pool := fresh "pool" in
  set (tr := w_trace w') in *; set (pool := w_pool w') in *;
  clearbody tr pool; destruct HR.

(** ** No port *)


(** ** Faults of the startup callbacks *)



Lemma no_fault_forallb tr :
  (forall e, In e tr -> startup_fault e = None) ->
  forallb (fun e : event =>
             match startup_fault e with None => true | Some _ => false end)
          tr = true.
Proof.
  intros H. apply forallb_forall. intros e He. rewrite (H e He). reflexivity.
Qed.


(** ** The order of the lifecycle *)




(** ** The handler chain *)

Lemma late_not_chain (evs : list event) :
  forallb late_event evs = true ->
  forallb (fun e => negb (chain_event e)) evs = true.
Proof.
  rewrite !forallb_forall. intros H e He. specialize (H e He).
  destruct e; simpl in *; auto; discriminate.
Qed.

(** C7: when SetMiddleware has returned its list [hs], the handler is
    built once, right then and before any listener goroutine is started,
    from [hs] and the router that was given to ConfigureRoutes: its
    handlers are [hs] in the order supplied, followed by the router.
    Every listener started serves with this one handler; the first
    handler of the list runs first, with the rest of the chain as its
    [next], and after the router nothing runs. *)
Theorem handler_chain_built_once (app : Gapp) (s : S) sched (f : RunFunc)
    res w' c hs :
  Run app (init_world s sched f) = (res, w') ->
  In (SetMiddlewareEv c (Ret hs)) (w_trace w') ->
  exists r pre post,
    let n := UseHandler Router_ServeHTTP (negroni_New hs) r in
    w_trace w'
    = pre ++ [SetMiddlewareEv c (Ret hs); NegroniNewEv hs; UseHandlerEv r]
          ++ post /\
    In (ConfigureRoutesEv r c (Ret tt)) pre /\
    forallb (fun e => negb (chain_event e)) (pre ++ post) = true /\
    started pre = [] /\
    (forall l : listener,
        In (GoEv l) (w_trace w') -> Handler_ (Server (srv l)) = n) /\
    handlers n = hs ++ [negroni_Wrap (Router_ServeHTTP r)] /\
    (forall h rest rw req,
        hs = h :: rest ->
        Negroni_ServeHTTP n rw req
        = h (NewResponseWriter rw) req
            (build (rest ++ [negroni_Wrap (Router_ServeHTTP r)]))) /\
    (forall rw req,
        build [negroni_Wrap (Router_ServeHTTP r)] rw req
        = bind (Router_ServeHTTP r rw req) (fun _ => ret tt)).
Proof.
  intros HR Hin. shape_cases HR w'; try solve [in_cases Hin];
    try solve
      [ in_cases Hin; injection Hin as -> ->;
        match goal with
        | |- exists r0 pre post, let n := _ in ?l = _ /\ _ =>
            exists r, (firstn 5 l), (skipn 8 l)
        end;
        cbn zeta; split; [reflexivity|]; split; [cbn; auto 10|];
        split; [reflexivity|]; split; [reflexivity|];
        split; [intros l Hl; in_cases Hl|];
        split; [reflexivity|];
        split; [intros h rest rw req ->; reflexivity | reflexivity] ].
  apply in_app_or in Hin. destruct Hin as [Hin|Hin].
  - in_cases Hin. injection Hin as -> ->.
    pose proof (listen_shape_late H0) as Hlate.
    destruct (listen_shape_started H0) as [Hst _].
    exists r, (firstn 5 (startup_trace c r hs sc)),
      (skipn 8 (startup_trace c r hs sc) ++ evs).
    cbn zeta. split; [reflexivity|]. split; [cbn; auto 10|].
    split; [cbn; apply late_not_chain, Hlate|].
    split; [reflexivity|].
    split.
    + intros l Hl. apply in_app_or in Hl. destruct Hl as [Hl|Hl].
      * in_cases Hl.
      * apply In_started in Hl. rewrite Hst in Hl.
        apply (listeners_of_handler _ _ _ Hl).
    + split; [reflexivity|].
      split; [intros h rest rw req ->; reflexivity | reflexivity].
  - pose proof (late_in (listen_shape_late H0) Hin). discriminate.
Qed.

(** ** The listeners *)

Lemma http_listener_plain sc (n : Negroni S) :
  plain_listener sc n (http_listener sc n).
Proof. repeat split. Qed.

Lemma tls_listener_secure sc (n : Negroni S) :
  secure_listener sc n (tls_listener sc n).
Proof. repeat split. Qed.

(** C8 (amended): in a run in which HandleStart returns, the listener
    goroutines started are one per positive port of the ServerConfig: a
    plain-HTTP listener (ListenAndServe) on the address Host:Port if and
    only if Port is positive, and after it a TLS listener
    (ListenAndServeTLS with TLSCertFile and TLSPrivateKeyFile) on the
    address Host:TLSPort if and only if TLSPort is positive; each has the
    one handler built by initApp and the ReadTimeout, the WriteTimeout and
    the GracefulTimeout of the ServerConfig; the pool holds exactly these
    goroutines. *)
Theorem listeners_per_positive_port (app : Gapp) (s : S) sched
    (f : RunFunc) res w' host port tlsPort :
  Run app (init_world s sched f) = (res, w') ->
  In (HandleStartEv host port tlsPort (Ret tt)) (w_trace w') ->
  listeners_started Router_ServeHTTP (w_trace w') /\
  map (@g_body S) (w_pool w') = started (w_trace w').
Proof.
  intros HR Hin. shape_cases HR w'; try solve [in_cases Hin].
  - split; [|reflexivity].
    intros conf sc0 Hget Hpos. in_cases Hget. injection Hget as -> ->. lia.
  - destruct (listen_shape_started H0) as [Hst Hbody]. split.
    + intros conf sc0 Hget Hpos. apply in_app_or in Hget.
      destruct Hget as [Hget|Hget].
      * in_cases Hget. injection Hget as -> ->.
        exists hs, r,
          (if 0 <? Port sc0
           then [http_listener sc0
                   (UseHandler Router_ServeHTTP (negroni_New hs) r)]
           else []),
          (if 0 <? TLSPort sc0
           then [tls_listener sc0
                   (UseHandler Router_ServeHTTP (negroni_New hs) r)]
           else []).
        rewrite started_app, Hst.
        split; [apply in_or_app; left; cbn; auto 10|].
        split; [apply in_or_app; left; cbn; auto 10|].
        split; [reflexivity|].
        split; [|split; [|split]].
        -- intros Hp. apply Z.ltb_lt in Hp. rewrite Hp.
           eexists. split; [reflexivity|]. apply http_listener_plain.
        -- intros Hp. apply Z.ltb_ge in Hp. rewrite Hp. reflexivity.
        -- intros Hp. apply Z.ltb_lt in Hp. rewrite Hp.
           eexists. split; [reflexivity|]. apply tls_listener_secure.
        -- intros Hp. apply Z.ltb_ge in Hp. rewrite Hp. reflexivity.
      * pose proof (late_in (listen_shape_late H0) Hget). discriminate.
    + rewrite started_app, Hst, Hbody. reflexivity.
Qed.

(** ** HandleStopped *)



(** ** The package-level variable [doRunFunc] *)



















(** ** The startup does not depend on the schedule *)

(** Runs Run from its first statement to the end of the startup, with
    the outcomes of the callbacks taken from the context. *)
Ltac run_startup :=
  intros ?sched; eexists; rewrite Run_unfold;
  unfold App.initApp, init_world, mbind, mret;
  repeat (first [ rewrite call_no_goroutine | rewrite NewRouter_no_goroutine
                | rewrite New_no_goroutine | rewrite Use_no_goroutine ];
          repeat match goal with E : _ = _ |- _ => rewrite E end;
          cbn [fst snd lift]);
  reflexivity.

(** Whatever the schedule, a run either ends in its startup, with the same
    panic, heap and trace, or enters its listening phase from the same
    state (up to the schedule that is left). *)
Lemma Run_startup (app : Gapp) (s : S) (f : RunFunc) :
  (exists v s' tr,
      forallb late_event tr = false /\
      forallb (fun e => negb (late_event e)) tr = true /\
      ((exists e, In e tr /\ startup_fault e = Some v) \/
       (v = no_ports /\ forall e, In e tr -> startup_fault e = None)) /\
      forall sched, exists sched',
        Run app (init_world s sched f)
        = (Panicked v, mkWorld s' tr 0 [] sched' f)) \/
  (exists c r hs sc s',
      (0 < Port sc \/ 0 < TLSPort sc) /\
      forall sched, exists sched',
        Run app (init_world s sched f)
        = listen_phase app sc (UseHandler Router_ServeHTTP (negroni_New hs) r)
            (mkWorld s' (startup_trace c r hs sc) 0 [] sched' f)).
Proof.
  destruct (LoadConfig app s) as [[c|v] s1] eqn:E1.
  2:{ left. exists v, s1, [LoadConfigEv (Panic v)].
      repeat split; [left; eexists; split; [left|]; reflexivity|].
      run_startup. }
  destruct (ConfigureLogging app c s1) as [[[]|v] s2] eqn:E2.
  2:{ left. exists v, s2,
        [LoadConfigEv (Ret c); ConfigureLoggingEv c (Panic v)].
      repeat split; [left; eexists; split; [right; left|]; reflexivity|].
      run_startup. }
  destruct (InitResources app c s2) as [[[]|v] s3] eqn:E3.
  2:{ left. exists v, s3,
        [LoadConfigEv (Ret c); ConfigureLoggingEv c (Ret tt);
         InitResourcesEv c (Panic v)].
      repeat split; [left; eexists; split; [do 2 right; left|]; reflexivity|].
      run_startup. }
  destruct (mux_NewRouter s3) as [r s4] eqn:E4.
  destruct (ConfigureRoutes app r c s4) as [[[]|v] s5] eqn:E5.
  2:{ left. exists v, s5,
        [LoadConfigEv (Ret c); ConfigureLoggingEv c (Ret tt);
         InitResourcesEv c (Ret tt); NewRouterEv r;
         ConfigureRoutesEv r c (Panic v)].
      repeat split; [left; eexists; split; [do 4 right; left|]; reflexivity|].
      run_startup. }
  destruct (SetMiddleware app c s5) as [[hs|v] s6] eqn:E6.
  2:{ left. exists v, s6,
        [LoadConfigEv (Ret c); ConfigureLoggingEv c (Ret tt);
         InitResourcesEv c (Ret tt); NewRouterEv r;
         ConfigureRoutesEv r c (Ret tt); SetMiddlewareEv c (Panic v)].
      repeat split; [left; eexists; split; [do 5 right; left|]; reflexivity|].
      run_startup. }
  destruct (GetServerConf app c s6) as [[sc|v] s7] eqn:E7.
  2:{ left. exists v, s7,
        [LoadConfigEv (Ret c); ConfigureLoggingEv c (Ret tt);
         InitResourcesEv c (Ret tt); NewRouterEv r;
         ConfigureRoutesEv r c (Ret tt); SetMiddlewareEv c (Ret hs);
         NegroniNewEv hs; UseHandlerEv r; GetServerConfEv c (Panic v)].
      repeat split; [left; eexists; split; [do 8 right; left|]; reflexivity|].
      run_startup. }
  destruct (HandleStart app (Host sc) (Port sc) (TLSPort sc) s7)
    as [[[]|v] s8] eqn:E8.
  2:{ left. exists v, s8,
        [LoadConfigEv (Ret c); ConfigureLoggingEv c (Ret tt);
         InitResourcesEv c (Ret tt); NewRouterEv r;
         ConfigureRoutesEv r c (Ret tt); SetMiddlewareEv c (Ret hs);
         NegroniNewEv hs; UseHandlerEv r; GetServerConfEv c (Ret sc);
         HandleStartEv (Host sc) (Port sc) (TLSPort sc) (Panic v)].
      repeat split; [left; eexists; split; [do 9 right; left|]; reflexivity|].
      run_startup. }
  destruct ((Port sc <=? 0) && (TLSPort sc <=? 0)) eqn:Eports.
  - left. exists no_ports, s8, (startup_trace c r hs sc).
    repeat split.
    + right. split; [reflexivity|].
      intros e He. in_cases He; subst e; reflexivity.
    + run_startup.
  - right. exists c, r, hs, sc, s8.
    apply andb_false_iff in Eports. rewrite !Z.leb_gt in Eports.
    split; [exact Eports|].
    assert (Eports' : (Port sc <=? 0) && (TLSPort sc <=? 0) = false)
      by (apply andb_false_iff; rewrite !Z.leb_gt; exact Eports).
    clear Eports. run_startup.
Qed.

Lemma listening_start (s : S) tr sched (f : RunFunc) :
  listening tr [] 0 (mkWorld s tr 0 [] sched f).
Proof.
  exists []. cbn. rewrite app_nil_r. repeat split; auto.
  intros [|i] g Hi; discriminate.
Qed.

Lemma filter_late (evs : list event) :
  forallb late_event evs = true ->
  filter (fun e => negb (late_event e)) evs = [].
Proof.
  induction evs as [|e evs IH]; cbn; [reflexivity|].
  intros H. apply andb_prop in H. destruct H as [He H].
  rewrite He. cbn. apply IH, H.
Qed.

Lemma filter_not_late (tr : list event) :
  forallb (fun e => negb (late_event e)) tr = true ->
  filter (fun e => negb (late_event e)) tr = tr.
Proof.
  induction tr as [|e tr IH]; cbn; [reflexivity|].
  intros H. apply andb_prop in H. destruct H as [He H].
  rewrite He, (IH H). reflexivity.
Qed.

Lemma listeners_of_nonempty sc (n : Negroni S) :
  0 < Port sc \/ 0 < TLSPort sc -> listeners_of sc n <> [].
Proof.
  unfold listeners_of. intros [H|H]; apply Z.ltb_lt in H; rewrite H.
  - discriminate.
  - destruct (0 <? Port sc); discriminate.
Qed.

(** X3: what happens before the join does not depend on the scheduler:
    under any two schedules, a run makes the same calls of the startup, in
    the same order and with the same outcomes, and starts the same
    listeners; a run that ends without having started a listener ends in
    the same way, with the same trace and the same heap. *)
Theorem startup_independent_of_schedule (app : Gapp) (s : S)
    (f : RunFunc) sched1 sched2 :
  let r1 := Run app (init_world s sched1 f) in
  let r2 := Run app (init_world s sched2 f) in
  filter (fun e => negb (late_event e)) (w_trace (snd r1))
  = filter (fun e => negb (late_event e)) (w_trace (snd r2)) /\
  started (w_trace (snd r1)) = started (w_trace (snd r2)) /\
  map (@g_body S) (w_pool (snd r1)) = map (@g_body S) (w_pool (snd r2)) /\
  (started (w_trace (snd r1)) = [] ->
   fst r1 = fst r2 /\
   w_trace (snd r1) = w_trace (snd r2) /\
   w_heap (snd r1) = w_heap (snd r2)).
Proof.
  cbn zeta.
  destruct (Run_startup app s f)
    as [(v & s' & tr & _ & _ & _ & Hrun)
       | (c & r & hs & sc & s' & Hports & Hrun)];
    destruct (Hrun sched1) as [sch1 E1]; destruct (Hrun sched2) as [sch2 E2];
    rewrite E1, E2.
  - cbn. repeat split; auto.
  - destruct (listen_phase_shape app sc
                (UseHandler Router_ServeHTTP (negroni_New hs) r)
                (listening_start s' (startup_trace c r hs sc) sch1 f))
      as (evs1 & Htr1 & Hshape1).
    destruct (listen_phase_shape app sc
                (UseHandler Router_ServeHTTP (negroni_New hs) r)
                (listening_start s' (startup_trace c r hs sc) sch2 f))
      as (evs2 & Htr2 & Hshape2).
    rewrite Htr1, Htr2.
    destruct (listen_shape_started Hshape1) as [Hst1 Hb1].
    destruct (listen_shape_started Hshape2) as [Hst2 Hb2].
    rewrite !filter_app, !started_app, Hb1, Hb2, Hst1, Hst2,
      (@filter_late evs1 (listen_shape_late Hshape1)),
      (@filter_late evs2 (listen_shape_late Hshape2)).
    split; [reflexivity|]. split; [reflexivity|]. split; [reflexivity|].
    cbn [started startup_trace List.app]. intros Hnil.
    exfalso. eapply listeners_of_nonempty; eassumption.
Qed.

(** ** The counter of the WaitGroup *)

Lemma wait_loop_blocked sched : forall w w1,
  wait_loop sched w = (Blocked, w1) -> w_wg w1 <> 0 /\ w_sched w1 = [].
Proof.
  induction sched as [|[|i] sched IH]; intros w w1; simpl;
    destruct (w_wg w =? 0) eqn:E; try discriminate.
  - intros H. injection H as <-. apply Z.eqb_neq in E. auto.
  - destruct sched; apply IH.
  - apply IH.
Qed.

Lemma wg_Wait_blocked w w1 :
  wg_Wait w = (Blocked, w1) -> w_wg w1 <> 0 /\ w_sched w1 = [].
Proof.
  unfold wg_Wait, mbind, yield.
  destruct (run_others (w_sched w) w) as [sched w0].
  apply wait_loop_blocked.
Qed.

(** The counter at the end of the listening phase. *)
Lemma listen_phase_counter (app : Gapp) sc n tr0 w :
  listening tr0 [] 0 w ->
  w_wg (snd (listen_phase app sc n w))
  = live (w_pool (snd (listen_phase app sc n w))) /\
  (fst (listen_phase app sc n w) = Blocked ->
   w_wg (snd (listen_phase app sc n w)) <> 0 /\
   w_sched (snd (listen_phase app sc n w)) = []) /\
  (fst (listen_phase app sc n w) <> Blocked ->
   w_wg (snd (listen_phase app sc n w)) = 0).
Proof.
  intros H.
  destruct (start_listener (0 <? Port sc) (http_listener sc n) H)
    as (w1 & E1 & H1).
  destruct (start_listener (0 <? TLSPort sc) (tls_listener sc n) H1)
    as (w2 & E2 & H2).
  destruct (listen_phase app sc n w) as [res w'] eqn:HX. cbn [fst snd].
  unfold listen_phase, mbind in HX, E1, E2. rewrite E1, E2 in HX.
  destruct (wg_Wait_listening H2)
    as [(w3 & E3 & H3) | (w0 & sched' & E3 & H3 & Hwg)].
  - destruct (wg_Wait_blocked _ E3) as [Hne Hsched].
    rewrite E3 in HX. inversion HX; subst res w'.
    destruct H3 as (evs & _ & _ & _ & _ & Hlive & _).
    split; [lia|]. split; [auto | congruence].
  - rewrite E3 in HX.
    destruct H3 as (evs & Htr & Hev & Hst & Hbody & Hlive & Hexit).
    assert (Hdone : forall i g, nth_error (w_pool w0) i = Some g ->
                                done g = true).
    { apply live_zero_done. lia. }
    unfold call, mbind, yield in HX.
    rewrite run_others_all_done in HX by exact Hdone.
    cbn [w_heap w_trace w_pool w_wg w_sched doRunFunc log_event set_sched]
      in HX.
    destruct (HandleStopped app (w_heap w0)) as [o s'].
    inversion HX; subst res w'. cbn [w_wg w_pool].
    split; [lia|]. split; [|auto].
    destruct o; discriminate.
Qed.

Lemma Run_counter (app : Gapp) (s : S) sched (f : RunFunc) :
  w_wg (snd (Run app (init_world s sched f)))
  = live (w_pool (snd (Run app (init_world s sched f)))) /\
  (fst (Run app (init_world s sched f)) = Blocked ->
   w_wg (snd (Run app (init_world s sched f))) <> 0 /\
   w_sched (snd (Run app (init_world s sched f))) = []) /\
  (fst (Run app (init_world s sched f)) = Returned tt ->
   w_wg (snd (Run app (init_world s sched f))) = 0).
Proof.
  destruct (Run_startup app s f)
    as [(v & s' & tr & _ & _ & _ & Hrun)
       | (c & r & hs & sc & s' & Hports & Hrun)];
    destruct (Hrun sched) as [sch E]; rewrite E.
  - cbn. repeat split; try lia; discriminate.
  - destruct (listen_phase_counter app sc
                (UseHandler Router_ServeHTTP (negroni_New hs) r)
                (listening_start s' (startup_trace c r hs sc) sch f))
      as (Hlive & Hblocked & Hnot).
    split; [exact Hlive|]. split; [exact Hblocked|].
    intros Hres. apply Hnot. rewrite Hres. discriminate.
Qed.

(** X4: when Run ends, by return, by panic or blocked in wg.Wait(), the
    counter of its WaitGroup is the number of goroutines it started that
    have not terminated: every wg.Add(1) is matched by a [go], every
    wg.Done() by a termination, so the counter is never negative; it is
    zero when Run returns and positive when Run is blocked. *)
Theorem WaitGroup_counts_running_listeners (app : Gapp) (s : S) sched
    (f : RunFunc) :
  let res := fst (Run app (init_world s sched f)) in
  let w' := snd (Run app (init_world s sched f)) in
  w_wg w' = live (w_pool w') /\
  0 <= w_wg w' /\
  (res = Returned tt -> w_wg w' = 0) /\
  (res = Blocked -> 0 < w_wg w').
Proof.
  cbn zeta.
  destruct (Run_counter app s sched f) as (Hlive & Hblocked & Hret).
  pose proof (live_nonneg (w_pool (snd (Run app (init_world s sched f))))).
  split; [exact Hlive|]. split; [lia|]. split; [exact Hret|].
  intros Hres. destruct (Hblocked Hres). lia.
Qed.

(** ** What a listener goroutine does *)

Lemma step_goroutine_traced j w :
  goroutines_traced w -> goroutines_traced (step_goroutine j w).
Proof.
  intros H. unfold step_goroutine.
  destruct (nth_error (w_pool w) j) as [g|] eqn:Ej; [|exact H].
  destruct (g_state g) eqn:Eg; [| |exact H]; intros i;
    pose proof (H i) as Hi; unfold goroutines_traced, goroutine_trace,
      goroutine_history in *; cbn [w_trace w_pool];
    rewrite filter_app; cbn [filter of_goroutine];
    destruct (Nat.eqb_spec i j) as [->|Hne];
    try (rewrite (nth_error_set_state_eq _ _ _ Ej); cbn [g_state g_body];
         rewrite Ej, Eg in Hi; rewrite Hi; reflexivity);
    rewrite nth_error_set_state_neq by congruence;
    rewrite app_nil_r; exact Hi.
Qed.

Lemma run_others_traced sched : forall w,
  goroutines_traced w -> goroutines_traced (snd (run_others sched w)).
Proof.
  induction sched as [|[|i] sched IH]; intros w H; simpl; auto.
  apply IH, step_goroutine_traced, H.
Qed.

(** A statement of the main thread adds an event that is no goroutine's
    and leaves the pool as it is. *)
Lemma main_event_traced (e : event) w (s : S) n sched (d : RunFunc) :
  (forall i, of_goroutine i e = false) ->
  goroutines_traced w ->
  goroutines_traced (mkWorld s (w_trace w ++ [e]) n (w_pool w) sched d).
Proof.
  intros He H i. unfold goroutine_trace. cbn [w_trace w_pool].
  rewrite filter_app. cbn [filter]. rewrite He, app_nil_r. apply H.
Qed.

Lemma keeps_mret {A} (a : A) :
  keeps_traced (mret (S:=S) (Config:=Config) (Router:=Router)
                  (RunFunc:=RunFunc) a).
Proof. intros w H. exact H. Qed.

Lemma keeps_panic {A} v :
  keeps_traced (panic (S:=S) (Config:=Config) (Router:=Router)
                  (RunFunc:=RunFunc) (A:=A) v).
Proof. intros w H. exact H. Qed.

Lemma keeps_mbind {A B} (m : App.M S Config Router RunFunc A)
    (k : A -> App.M S Config Router RunFunc B) :
  keeps_traced m -> (forall a, keeps_traced (k a)) ->
  keeps_traced (mbind m k).
Proof.
  intros Hm Hk w H. unfold mbind. specialize (Hm w H).
  destruct (m w) as [[a|v|] w1]; cbn [snd] in *; [apply Hk| |]; exact Hm.
Qed.

Lemma keeps_if {A} (b : bool) (m1 m2 : App.M S Config Router RunFunc A) :
  keeps_traced m1 -> keeps_traced m2 -> keeps_traced (if b then m1 else m2).
Proof. destruct b; auto. Qed.

Lemma keeps_yield :
  keeps_traced (yield (S:=S) (Config:=Config) (Router:=Router)
                  (RunFunc:=RunFunc)).
Proof.
  intros w H. unfold yield.
  pose proof (run_others_traced (w_sched w) H) as H1.
  destruct (run_others (w_sched w) w) as [sched w1]. exact H1.
Qed.

Lemma keeps_call {A} (g : S -> outcome A * S) (ev : outcome A -> event) :
  (forall o i, of_goroutine i (ev o) = false) ->
  keeps_traced (call (RunFunc:=RunFunc) g ev).
Proof.
  intros Hev. apply keeps_mbind; [apply keeps_yield|].
  intros _ w H. destruct (g (w_heap w)) as [o s'].
  apply main_event_traced; auto.
Qed.

Lemma keeps_NewRouter :
  keeps_traced (NewRouter (Config:=Config) mux_NewRouter (RunFunc:=RunFunc)).
Proof.
  apply keeps_mbind; [apply keeps_yield|].
  intros _ w H. destruct (mux_NewRouter (w_heap w)) as [r s'].
  apply main_event_traced; auto.
Qed.

Lemma keeps_New (hs : list (Handler S)) :
  keeps_traced (New (Config:=Config) (Router:=Router) (RunFunc:=RunFunc) hs).
Proof.
  apply keeps_mbind; [apply keeps_yield|].
  intros _ w H. apply main_event_traced; auto.
Qed.

Lemma keeps_Use (n : Negroni S) (r : Router) :
  keeps_traced (Use (Config:=Config) Router_ServeHTTP (RunFunc:=RunFunc) n r).
Proof.
  apply keeps_mbind; [apply keeps_yield|].
  intros _ w H. apply main_event_traced; auto.
Qed.

Lemma keeps_wg_Add delta :
  keeps_traced (wg_Add (S:=S) (Config:=Config) (Router:=Router)
                  (RunFunc:=RunFunc) delta).
Proof.
  apply keeps_mbind; [apply keeps_yield|].
  intros _ w H. apply main_event_traced; auto.
Qed.

(** The goroutine a [go] statement creates has done nothing yet. *)
Lemma keeps_go (l : listener) :
  keeps_traced (go (Config:=Config) (Router:=Router) (RunFunc:=RunFunc) l).
Proof.
  apply keeps_mbind; [apply keeps_yield|].
  intros _ w H i. pose proof (H i) as Hi.
  unfold goroutine_trace, goroutine_history in *.
  cbn [snd w_trace w_pool]. rewrite filter_app. cbn [filter of_goroutine].
  rewrite app_nil_r, Hi.
  destruct (Nat.lt_ge_cases i (List.length (w_pool w))) as [Hlt|Hge].
  - rewrite nth_error_app1 by exact Hlt. reflexivity.
  - rewrite nth_error_app2 by exact Hge.
    rewrite (proj2 (nth_error_None _ _) Hge).
    destruct (i - List.length (w_pool w))%nat as [|[|k]]; reflexivity.
Qed.

Lemma wait_loop_traced sched : forall w,
  goroutines_traced w -> goroutines_traced (snd (wait_loop sched w)).
Proof.
  induction sched as [|[|i] sched IH]; intros w H; simpl;
    destruct (w_wg w =? 0);
    try (apply (@main_event_traced WgWaitEv (set_sched _ w)); auto; fail).
  - exact H.
  - destruct sched; apply IH, H.
  - apply IH, step_goroutine_traced, H.
Qed.

Lemma keeps_wg_Wait :
  keeps_traced (wg_Wait (S:=S) (Config:=Config) (Router:=Router)
                  (RunFunc:=RunFunc)).
Proof.
  apply keeps_mbind; [apply keeps_yield|].
  intros _ w H. apply wait_loop_traced, H.
Qed.

Lemma keeps_initApp (app : Gapp) : keeps_traced (initApp app).
Proof.
  unfold App.initApp.
  repeat first
    [ apply keeps_call; reflexivity | apply keeps_NewRouter
    | apply keeps_New | apply keeps_Use | apply keeps_mret
    | apply keeps_mbind; [|intros ?] ].
Qed.

Lemma keeps_Run (app : Gapp) : keeps_traced (Run app).
Proof.
  unfold App.Run.
  apply keeps_mbind; [apply keeps_initApp|]. intros [config n].
  repeat first
    [ apply keeps_call; reflexivity | apply keeps_wg_Add | apply keeps_go
    | apply keeps_wg_Wait | apply keeps_panic | apply keeps_mret
    | apply keeps_if
    | apply keeps_mbind; [|intros ?] ].
Qed.

Lemma Run_pool_started (app : Gapp) (s : S) sched (f : RunFunc) :
  map (@g_body S) (w_pool (snd (Run app (init_world s sched f))))
  = started (w_trace (snd (Run app (init_world s sched f)))).
Proof.
  destruct (Run_shape app s sched f); try reflexivity.
  match goal with H : listen_shape _ _ _ _ |- _ =>
    destruct (listen_shape_started H) as [Hst Hb] end.
  rewrite started_app, Hst, Hb. reflexivity.
Qed.

(** X6: at the end of a run, whatever the schedule, the trace tells of
    every goroutine what its state says: a goroutine that has not run has
    made no call, a goroutine that is serving has called its server once,
    and a goroutine that has terminated has called its server once and
    then run its deferred wg.Done() once, in that order.  The server is
    the one of its [go] statement: goroutine [i] is the [i]-th listener
    started.  No other goroutine appears in the trace. *)
Theorem listener_goroutine_serves_once (app : Gapp) (s : S) sched
    (f : RunFunc) :
  let w' := snd (Run app (init_world s sched f)) in
  map (@g_body S) (w_pool w') = started (w_trace w') /\
  forall i,
    goroutine_trace i (w_trace w')
    = match nth_error (w_pool w') i with
      | None => []
      | Some g =>
          match g_state g with
          | GCreated => []
          | GServing => [ServeEv i (g_body g)]
          | GDone => [ServeEv i (g_body g); ExitEv i]
          end
      end.
Proof.
  cbn zeta. split; [apply Run_pool_started|].
  apply (keeps_Run app). intros i. unfold goroutine_history.
  destruct i; reflexivity.
Qed.

(** ** What HandleStart is told *)


(** ** Why Run panics *)

(** X8: Run panics for one of three reasons only, and the value tells
    which: a startup callback (LoadConfig, ConfigureLogging, InitResources,
    ConfigureRoutes, SetMiddleware, GetServerConf or HandleStart) panicked
    with that value as the last call of the run; or every callback of the
    startup returned and the ServerConfig has no positive port; or
    HandleStopped panicked with that value, after the join.  In the first
    two cases no listener goroutine exists; in the third every goroutine
    started has terminated. *)
Theorem Run_panic_origin (app : Gapp) (s : S) sched (f : RunFunc) v w' :
  Run app (init_world s sched f) = (Panicked v, w') ->
  (exists pre e,
      w_trace w' = pre ++ [e] /\ startup_fault e = Some v /\
      (forall e', In e' pre -> startup_fault e' = None) /\
      started (w_trace w') = [] /\
      w_pool w' = []) \/
  (exists c r hs sc,
      v = no_ports /\ w_trace w' = startup_trace c r hs sc /\
      Port sc <= 0 /\ TLSPort sc <= 0 /\
      w_pool w' = []) \/
  (exists c r hs sc evs,
      w_trace w'
      = startup_trace c r hs sc ++ evs
          ++ [WgWaitEv; HandleStoppedEv (Panic v)] /\
      (0 < Port sc \/ 0 < TLSPort sc) /\
      forallb listening_event evs = true /\
      map (@g_body S) (w_pool w')
      = listeners_of sc (UseHandler Router_ServeHTTP (negroni_New hs) r) /\
      forall i g, nth_error (w_pool w') i = Some g -> g_state g = GDone).
Proof.
  intros HR. apply Run_cases in HR.
  inversion HR as
    [ v0 | c v0 | c v0 | c r v0 | c r v0 | c r hs v0 | c r hs sc v0
    | c r hs sc Hp Ht | c r hs sc res evs pool Hports Hshape ];
    try solve
      [ left;
        match goal with
        | |- exists pre e, ?l = _ /\ _ =>
            exists (removelast l), (last l WgWaitEv)
        end;
        split; [reflexivity|]; split; [reflexivity|];
        split; [|split; reflexivity];
        cbn [removelast]; intros e' He'; in_cases He'; subst e';
        reflexivity ].
  - right; left. exists c, r, hs, sc. auto.
  - right; right.
    inversion Hshape as
      [ evs' pool' Hev Hst Hbody Hres
      | o evs' pool' Hev Hst Hbody Hexit Hres ].
    destruct o as [[]|v0]; [discriminate Hres|]. injection Hres as ->.
    exists c, r, hs, sc, evs'.
    split; [reflexivity|]. split; [exact Hports|]. split; [exact Hev|].
    split; [exact Hbody|].
    intros i g Hi. destruct (Hexit i g Hi) as [Hd _].
    unfold done in Hd. destruct (g_state g); congruence.
Qed.

(** ** The addresses of the listeners *)

Lemma Itoa_parse (i : Z) : NilZero.int_of_string (Itoa i) = Some (Z.to_int i).
Proof.
  apply NilZero.isi; destruct i; simpl; try discriminate;
    intros H; injection H as H;
    exact (DecimalPos.Unsigned.to_uint_nonnil _ H).
Qed.

(** strconv.Itoa gives different numbers different strings. *)
Lemma Itoa_inj (i j : Z) : Itoa i = Itoa j -> i = j.
Proof.
  intros H. apply DecimalZ.to_int_inj.
  pose proof (Itoa_parse i) as Hi. rewrite H, Itoa_parse in Hi.
  injection Hi as Hi. symmetry. exact Hi.
Qed.

Lemma append_cancel_l (a b c : string) :
  (a ++ b)%string = (a ++ c)%string -> b = c.
Proof.
  induction a as [|x a IH]; simpl; intros H; [exact H|].
  injection H as H. exact (IH H).
Qed.

Lemma address_equal_iff (host : string) (i j : Z) :
  (host ++ ":" ++ Itoa i)%string = (host ++ ":" ++ Itoa j)%string <-> i = j.
Proof.
  split.
  - intros H. apply append_cancel_l in H. apply append_cancel_l in H.
    apply Itoa_inj, H.
  - intros ->. reflexivity.
Qed.

(** X9: in a run in which HandleStart returns and both ports of the
    ServerConfig are positive, Run starts two servers, whatever the two
    numbers are: ListenAndServe on the address Host:Port, then
    ListenAndServeTLS on the address Host:TLSPort.  The two addresses are
    the same exactly when Port and TLSPort are the same number (the host is
    shared, and strconv.Itoa is injective): Run does not check this, and
    with two equal positive ports it starts both servers on one
    address. *)
Theorem equal_ports_share_one_address (app : Gapp) (s : S) sched
    (f : RunFunc) res w' conf sc :
  Run app (init_world s sched f) = (res, w') ->
  In (GetServerConfEv conf (Ret sc)) (w_trace w') ->
  In (HandleStartEv (Host sc) (Port sc) (TLSPort sc) (Ret tt)) (w_trace w') ->
  0 < Port sc -> 0 < TLSPort sc ->
  exists l1 l2,
    started (w_trace w') = [l1; l2] /\
    map (@g_body S) (w_pool w') = [l1; l2] /\
    serve l1 = ListenAndServe /\
    serve l2 = ListenAndServeTLS (TLSCertFile sc) (TLSPrivateKeyFile sc) /\
    Addr (Server (srv l1)) = (Host sc ++ ":" ++ Itoa (Port sc))%string /\
    Addr (Server (srv l2)) = (Host sc ++ ":" ++ Itoa (TLSPort sc))%string /\
    (Addr (Server (srv l1)) = Addr (Server (srv l2))
     <-> Port sc = TLSPort sc).
Proof.
  intros HR Hget Hstart Hp Ht. shape_cases HR w'; try solve [in_cases Hstart].
  - (* no positive port: excluded *)
    in_cases Hget. injection Hget as -> ->. lia.
  - (* the listening phase *)
    apply in_app_or in Hget. destruct Hget as [Hget|Hget];
      [|pose proof (late_in (listen_shape_late H0) Hget); discriminate].
    in_cases Hget. injection Hget as -> ->.
    destruct (listen_shape_started H0) as [Hst Hbody].
    unfold listeners_of in Hst, Hbody.
    rewrite (proj2 (Z.ltb_lt _ _) Hp), (proj2 (Z.ltb_lt _ _) Ht)
      in Hst, Hbody.
    eexists _, _. rewrite started_app, Hst, Hbody.
    split; [reflexivity|]. split; [reflexivity|].
    split; [reflexivity|]. split; [reflexivity|].
    split; [reflexivity|]. split; [reflexivity|].
    apply address_equal_iff.
Qed.

End Facts.

(** ** Runs of the example applications *)

Import Examples.

(** Finds an event in a trace that has been computed. *)
Ltac in_trace := vm_compute; repeat first [left; reflexivity | right].





Lemma handler_chain_built_once_witness :
  let r := run (service 8080 8443) schedule 0%nat in
  r = (fst r, snd r) /\
  In (SetMiddlewareEv "conf" (Ret middleware)) (w_trace (snd r)) /\
  exists rt pre post,
    let n := UseHandler serve_routes (negroni_New middleware) rt in
    w_trace (snd r)
    = pre ++ [SetMiddlewareEv "conf" (Ret middleware);
              NegroniNewEv middleware; UseHandlerEv rt] ++ post /\
    In (ConfigureRoutesEv rt "conf" (Ret tt)) pre /\
    forallb (fun e => negb (chain_event e)) (pre ++ post) = true /\
    started pre = [] /\
    (forall l : listener unit,
        In (GoEv l) (w_trace (snd r)) -> Handler_ (Server (srv l)) = n) /\
    handlers n = middleware ++ [negroni_Wrap (serve_routes rt)] /\
    (forall h rest rw req,
        middleware = h :: rest ->
        Negroni_ServeHTTP n rw req
        = h (NewResponseWriter rw) req
            (build (rest ++ [negroni_Wrap (serve_routes rt)]))) /\
    (forall rw req,
        build [negroni_Wrap (serve_routes rt)] rw req
        = bind (serve_routes rt rw req) (fun _ => ret tt)).
Proof.
  cbn zeta.
  refine ((fun H1 H2 =>
             conj H1 (conj H2
               (handler_chain_built_once _ _ _ _ _ _ _ _ H1 H2)))
            _ _).
  - exact (surjective_pairing _).
  - in_trace.
Defined.

(** C8, as stated for every run with a positive port, fails when
    HandleStart panics: port 8080 is configured and no listener is
    started. *)
Lemma no_listener_after_HandleStart_fault :
  ~ listeners_started serve_routes (w_trace (snd (run bad_start [] 0%nat))).
Proof.
  intros H.
  destruct (H "conf" (server 8080 0))
    as (hs & r & plain & secure & _ & _ & E & Hplain & _).
  - in_trace.
  - left. reflexivity.
  - destruct (Hplain eq_refl) as (l & -> & _).
    vm_compute in E. discriminate E.
Qed.

Lemma listeners_per_positive_port_witness :
  let r := run (service 8080 8443) schedule 0%nat in
  r = (fst r, snd r) /\
  In (HandleStartEv "localhost" 8080 8443 (Ret tt)) (w_trace (snd r)) /\
  listeners_started serve_routes (w_trace (snd r)) /\
  map (@g_body unit) (w_pool (snd r)) = started (w_trace (snd r)).
Proof.
  cbn zeta.
  refine ((fun H1 H2 =>
             conj H1 (conj H2
               (listeners_per_positive_port _ _ _ _ _ _ _ _ _ H1 H2)))
            _ _).
  - exact (surjective_pairing _).
  - in_trace.
Defined.



Lemma Run_panic_origin_witness :
  let r := run (service 0 0) [] 0%nat in
  r = (Panicked no_ports, snd r) /\
  ((exists pre e,
       w_trace (snd r) = pre ++ [e] /\ startup_fault e = Some no_ports /\
       (forall e', In e' pre -> startup_fault e' = None) /\
       started (w_trace (snd r)) = [] /\
       w_pool (snd r) = []) \/
   (exists c rt hs sc,
       no_ports = no_ports /\ w_trace (snd r) = startup_trace c rt hs sc /\
       Port sc <= 0 /\ TLSPort sc <= 0 /\
       w_pool (snd r) = []) \/
   (exists c rt hs sc evs,
       w_trace (snd r)
       = startup_trace c rt hs sc ++ evs
           ++ [WgWaitEv; HandleStoppedEv (Panic no_ports)] /\
       (0 < Port sc \/ 0 < TLSPort sc) /\
       forallb listening_event evs = true /\
       map (@g_body unit) (w_pool (snd r))
       = listeners_of sc (UseHandler serve_routes (negroni_New hs) rt) /\
       forall i g, nth_error (w_pool (snd r)) i = Some g ->
                   g_state g = GDone)).
Proof.
  cbn zeta.
  refine ((fun H1 => conj H1 (Run_panic_origin _ _ _ _ _ _ H1)) _).
  vm_compute. reflexivity.
Defined.

(** Port and TLSPort both 8080: two servers are started on
    localhost:8080. *)
Lemma equal_ports_share_one_address_witness :
  let r := run (service 8080 8080) schedule 0%nat in
  let sc := server 8080 8080 in
  r = (fst r, snd r) /\
  In (GetServerConfEv "conf" (Ret sc)) (w_trace (snd r)) /\
  In (HandleStartEv (Host sc) (Port sc) (TLSPort sc) (Ret tt))
     (w_trace (snd r)) /\
  0 < Port sc /\ 0 < TLSPort sc /\
  exists l1 l2,
    started (w_trace (snd r)) = [l1; l2] /\
    map (@g_body unit) (w_pool (snd r)) = [l1; l2] /\
    serve l1 = ListenAndServe /\
    serve l2 = ListenAndServeTLS (TLSCertFile sc) (TLSPrivateKeyFile sc) /\
    Addr (Server (srv l1)) = (Host sc ++ ":" ++ Itoa (Port sc))%string /\
    Addr (Server (srv l2)) = (Host sc ++ ":" ++ Itoa (TLSPort sc))%string /\
    (Addr (Server (srv l1)) = Addr (Server (srv l2))
     <-> Port sc = TLSPort sc).
Proof.
  cbn zeta.
  refine ((fun H1 H2 H3 H4 H5 =>
             conj H1 (conj H2 (conj H3 (conj H4 (conj H5
               (equal_ports_share_one_address _ _ _ _ _ _ _ _ H1 H2 H3
                  H4 H5))))))
            _ _ _ _ _).
  - exact (surjective_pairing _).
  - in_trace.
  - in_trace.
  - reflexivity.
  - reflexivity.
Defined.

(** The addresses, the calls and the timeouts of the two servers of
    [service 8080 8443], as the run computes them. *)
Lemma service_listeners :
  map (fun l : listener unit =>
         (Addr (Server (srv l)), serve l,
          (srv_ReadTimeout (Server (srv l)),
           srv_WriteTimeout (Server (srv l)), Timeout (srv l))))
      (started (w_trace (snd (run (service 8080 8443) schedule 0%nat))))
  = [ ("localhost:8080", ListenAndServe, (5, 7, 10));
      ("localhost:8443", ListenAndServeTLS "cert.pem" "key.pem",
       (5, 7, 10)) ].
Proof. vm_compute. reflexivity. Qed.

End AppFacts.
